(** * Indigo hedging system: acquisition, persistence and signal pipeline

    Shallow embedding of [realtime_data_collector.py] (fetchers, fallback
    generators, persistence writer, collection cycle) and of the analysis
    functions of [app.py] ([load_data], [calculate_price_changes] and the
    two hedging classifiers of [main]).

    Modelling conventions:
    - Python numbers are exact rationals [Q]; [round(x, n)] is Python's
      round-half-to-even applied to the exact value.
    - a Python dict is a [gmap string PyVal]; each [datetime.now()] is
      an instant [Z] (in microseconds) handed in by the caller.
    - an external call (a Yahoo Finance [history], the exchange-rate HTTP
      request) is an input describing what it did: raise or return.
    - [random.random()] is a state-passing generator [rand] over an
      abstract state, so "any prior call history" is "any state". *)

From Stdlib Require Import QArith Qround Qabs ZArith List Sorting.Permutation
  Sorting.Sorted Lia Lqa.
From stdpp Require Import base gmap strings.

Open Scope Q_scope.

(** ** Python values and rounding *)

(** Values stored in the observation dicts. *)
Inductive PyVal :=
| VNum (q : Q)
| VTime (t : Z).

Abbreviation Dict := (gmap string PyVal).

(** Round half to even of a rational to an integer. *)
Definition round_half_even (q : Q) : Z :=
  let f := Qfloor q in
  match Qcompare (q - inject_Z f) (1 # 2) with
  | Lt => f
  | Gt => (f + 1)%Z
  | Eq => if Z.even f then f else (f + 1)%Z
  end.

(** Python [round(x, n)] for [n >= 0]. *)
Definition py_round (x : Q) (n : Z) : Q :=
  let s := inject_Z (10 ^ n) in
  inject_Z (round_half_even (x * s)) / s.

(** Python's [a / b] on numbers: [ZeroDivisionError] when [b] is zero. *)
Definition py_div (a b : Q) : option Q :=
  if Qeq_bool b 0 then None else Some (a / b).

(** [d.get(k, default)] on a dict of numbers. *)
Definition dict_get (d : gmap string Q) (k : string) (default : Q) : Q :=
  match d !! k with Some v => v | None => default end.

(** Result of a ticker's [history(period="1d")] call: it raises, or it
    returns a frame whose [Close] column is the given list (possibly
    empty). *)
Inductive Hist :=
| HRaise
| HFrame (closes : list Q).

(** [frame['Close'].iloc[-1]] on a non-empty frame. *)
Definition last_close (l : list Q) : Q := List.last l 0.

(** ** Collector *)

Section Collector.

(** The generator behind [random.random()]. *)
Variable RState : Type.
Variable rand : RState -> Q * RState.

(** [random.uniform(a, b)] is [a + (b - a) * random()]. *)
Definition uniform (a b : Q) (st : RState) : Q * RState :=
  let (r, st') := rand st in (a + (b - a) * r, st').

(** [_get_fallback_fuel_prices] *)
Definition get_fallback_fuel_prices (now : Z) (st : RState) : Dict * RState :=
  let (j, st1) := uniform 2.3 2.6 st in
  let (b, st2) := uniform 60 70 st1 in
  let (w, st3) := uniform 55 65 st2 in
  (<["jet_fuel" := VNum (py_round j 6)]>
   (<["brent_crude" := VNum (py_round b 2)]>
    (<["wti_crude" := VNum (py_round w 2)]>
     (<["timestamp" := VTime now]> (∅ : Dict)))), st3).

(** [_get_fallback_currency_rates] *)
Definition get_fallback_currency_rates (now : Z) (st : RState) : Dict * RState :=
  let (u, st1) := uniform 88 90 st in
  let (e, st2) := uniform 102 105 st1 in
  let (g, st3) := uniform 117 120 st2 in
  let (y, st4) := uniform 0.57 0.58 st3 in
  (<["usd_inr" := VNum (py_round u 2)]>
   (<["eur_inr" := VNum (py_round e 2)]>
    (<["gbp_inr" := VNum (py_round g 2)]>
     (<["jpy_inr" := VNum (py_round y 6)]>
      (<["timestamp" := VTime now]> (∅ : Dict))))), st4).

(** The live fuel dict built from the two benchmark closes. *)
Definition live_fuel_dict (brent_price wti_price : Q) (now : Z) : Dict :=
  let jet_fuel_price := (brent_price + wti_price) / 2 * 1.35 in
  <["jet_fuel" := VNum (py_round jet_fuel_price 6)]>
  (<["brent_crude" := VNum (py_round brent_price 2)]>
   (<["wti_crude" := VNum (py_round wti_price 2)]>
    (<["timestamp" := VTime now]> (∅ : Dict)))).

(** [get_live_fuel_prices]: the two [history] calls happen in order; a
    raise in either one lands in the [except] branch, which also falls
    back. *)
Definition get_live_fuel_prices (brent wti : Hist) (now : Z) (st : RState)
  : option Dict * RState :=
  match brent, wti with
  | HFrame ((_ :: _) as bs), HFrame ((_ :: _) as ws) =>
      (Some (live_fuel_dict (last_close bs) (last_close ws) now), st)
  | _, _ =>
      let (d, st') := get_fallback_fuel_prices now st in (Some d, st')
  end.

(** What the exchange-rate HTTP request did: raise (timeout, network),
    or answer with a status code and a body whose [rates] table is
    [Some] table, or [None] when [response.json()['rates']] raises. *)
Inductive RespA :=
| ARaise
| AResp (status : Z) (rates : option (gmap string Q)).

(** Source A of [get_live_currency_rates]: [None] means control leaves
    the first [try] (non-200 status, or an exception) and goes on to
    source B. *)
Definition source_a (r : RespA) (now : Z) : option Dict :=
  match r with
  | AResp status (Some rates) =>
      if Z.eqb status 200 then
        let inr := dict_get rates "INR" 83.0 in
        e ← py_div inr (dict_get rates "EUR" 0.85);
        g ← py_div inr (dict_get rates "GBP" 0.73);
        y ← py_div inr (dict_get rates "JPY" 110.0);
        Some (<["usd_inr" := VNum (py_round inr 2)]>
              (<["eur_inr" := VNum (py_round e 2)]>
               (<["gbp_inr" := VNum (py_round g 2)]>
                (<["jpy_inr" := VNum (py_round y 6)]>
                 (<["timestamp" := VTime now]> (∅ : Dict))))))
      else None
  | _ => None
  end.

(** Source B (Yahoo Finance pairs): the four [history] calls run first,
    a raise in any of them leaves the [try]; with a non-empty USD/INR
    frame, an empty EUR, GBP or JPY frame takes its literal default. *)
Definition source_b (usd eur gbp jpy : Hist) (now : Z) : option Dict :=
  match usd, eur, gbp, jpy with
  | HFrame us, HFrame es, HFrame gs, HFrame js =>
      match us with
      | [] => None
      | _ :: _ =>
          Some (<["usd_inr" := VNum (py_round (last_close us) 2)]>
                (<["eur_inr" := VNum (match es with
                                       | [] => 90.0
                                       | _ => py_round (last_close es) 2 end)]>
                 (<["gbp_inr" := VNum (match gs with
                                        | [] => 105.0
                                        | _ => py_round (last_close gs) 2 end)]>
                  (<["jpy_inr" := VNum (match js with
                                         | [] => 0.55
                                         | _ => py_round (last_close js) 6 end)]>
                   (<["timestamp" := VTime now]> (∅ : Dict))))))
      end
  | _, _, _, _ => None
  end.

(** [get_live_currency_rates] *)
Definition get_live_currency_rates (a : RespA) (usd eur gbp jpy : Hist)
  (now : Z) (st : RState) : option Dict * RState :=
  match source_a a now with
  | Some d => (Some d, st)
  | None =>
      match source_b usd eur gbp jpy now with
      | Some d => (Some d, st)
      | None => let (d, st') := get_fallback_currency_rates now st in (Some d, st')
      end
  end.

End Collector.

(** ** Durable store *)

(** Timestamps, here and in the dicts, are instants in microseconds, the
    resolution of [datetime.now()]. *)
Record FuelRow := {
  fr_timestamp : Z;
  fr_jet_fuel : Q;
  fr_brent_crude : Q;
  fr_wti_crude : Q
}.

Record CurrencyRow := {
  cr_timestamp : Z;
  cr_usd_inr : Q;
  cr_eur_inr : Q;
  cr_gbp_inr : Q;
  cr_jpy_inr : Q
}.

(** [hedging_data.db]: whether [sqlite3.connect] succeeds, whether an
    [INSERT] is accepted (a locked or read-only file rejects it), and the
    committed rows of each table in insertion order ([None] when the table
    does not exist). *)
Record Store := {
  db_reachable : bool;
  db_writable : bool;
  db_fuel : option (list FuelRow);
  db_currency : option (list CurrencyRow)
}.

Definition insert_fuel (s : Store) (r : FuelRow) : option Store :=
  if db_writable s then
    rows ← db_fuel s;
    Some {| db_reachable := db_reachable s; db_writable := db_writable s;
            db_fuel := Some (rows ++ [r]); db_currency := db_currency s |}
  else None.

Definition insert_currency (s : Store) (r : CurrencyRow) : option Store :=
  if db_writable s then
    rows ← db_currency s;
    Some {| db_reachable := db_reachable s; db_writable := db_writable s;
            db_fuel := db_fuel s; db_currency := Some (rows ++ [r]) |}
  else None.

(** [d['k']] for the timestamp and for a number; a missing key is a
    [KeyError]. *)
Definition time_field (d : Dict) (k : string) : option Z :=
  match d !! k with Some (VTime t) => Some t | _ => None end.

Definition num_field (d : Dict) (k : string) : option Q :=
  match d !! k with Some (VNum q) => Some q | _ => None end.

(** The body of the [try] of [store_data_in_database]: [None] is an
    exception. The two inserts run in one transaction that only
    [conn.commit()] makes durable, so the result is the committed store. *)
Definition store_try (s : Store) (fuel_prices currency_rates : Dict)
  : option Store :=
  if db_reachable s then
    ts ← time_field fuel_prices "timestamp";
    j ← num_field fuel_prices "jet_fuel";
    b ← num_field fuel_prices "brent_crude";
    w ← num_field fuel_prices "wti_crude";
    s1 ← insert_fuel s {| fr_timestamp := ts; fr_jet_fuel := j;
                          fr_brent_crude := b; fr_wti_crude := w |};
    tc ← time_field currency_rates "timestamp";
    u ← num_field currency_rates "usd_inr";
    e ← num_field currency_rates "eur_inr";
    g ← num_field currency_rates "gbp_inr";
    y ← num_field currency_rates "jpy_inr";
    insert_currency s1 {| cr_timestamp := tc; cr_usd_inr := u;
                          cr_eur_inr := e; cr_gbp_inr := g; cr_jpy_inr := y |}
  else None.

(** [store_data_in_database]: the [except] only logs; the method returns
    [None] either way, so its only effect is the store it leaves. *)
Definition store_data_in_database (s : Store) (fuel_prices currency_rates : Dict)
  : Store :=
  match store_try s fuel_prices currency_rates with
  | Some s' => s'
  | None => s
  end.

(** ** Collection cycle *)

(** What the outside world does during one cycle. The two fetchers read
    the clock separately: [env_fuel_now] is the [datetime.now()] of the
    fuel dict, [env_currency_now] the one of the currency dict. *)
Record Env := {
  env_brent : Hist;
  env_wti : Hist;
  env_rates : RespA;
  env_usd : Hist;
  env_eur : Hist;
  env_gbp : Hist;
  env_jpy : Hist;
  env_fuel_now : Z;
  env_currency_now : Z
}.

(** Python truthiness of an optional dict. *)
Definition truthy (d : option Dict) : bool :=
  match d with Some m => bool_decide (m <> ∅) | None => false end.

Definition is_num (v : option PyVal) : bool :=
  match v with Some (VNum _) => true | _ => false end.

(** The report prints each field with a float format; a missing key or a
    non-number raises, which the outer [except] turns into [False]. The
    console is taken to accept the report's characters (an encoding error
    on printing is outside the model). *)
Definition report_ok (f c : Dict) : bool :=
  is_num (f !! "jet_fuel") && is_num (f !! "brent_crude")
  && is_num (f !! "wti_crude") && is_num (c !! "usd_inr")
  && is_num (c !! "eur_inr") && is_num (c !! "gbp_inr")
  && is_num (c !! "jpy_inr").

Section Cycle.

Variable RState : Type.
Variable rand : RState -> Q * RState.

(** [collect_and_store_realtime_data]: returns the cycle's boolean, the
    store afterwards and the generator state. *)
Definition collect_and_store_realtime_data (env : Env) (s : Store) (st : RState)
  : bool * Store * RState :=
  let (fuel_prices, st1) :=
    get_live_fuel_prices RState rand (env_brent env) (env_wti env) (env_fuel_now env) st in
  let (currency_rates, st2) :=
    get_live_currency_rates RState rand (env_rates env) (env_usd env) (env_eur env)
      (env_gbp env) (env_jpy env) (env_currency_now env) st1 in
  match fuel_prices, currency_rates with
  | Some f, Some c =>
      if truthy fuel_prices && truthy currency_rates then
        let s' := store_data_in_database s f c in
        (report_ok f c, s', st2)
      else (false, s, st2)
  | _, _ => (false, s, st2)
  end.

End Cycle.

(** ** Reader ([load_data]) *)

(** [ORDER BY timestamp DESC]: insertion sort on a key, newest first. *)
Fixpoint insert_desc {A} (key : A -> Z) (x : A) (l : list A) : list A :=
  match l with
  | [] => [x]
  | y :: l' => if Z.leb (key y) (key x) then x :: l else y :: insert_desc key x l'
  end.

Fixpoint sort_desc {A} (key : A -> Z) (l : list A) : list A :=
  match l with
  | [] => []
  | x :: l' => insert_desc key x (sort_desc key l')
  end.

(** [SELECT * FROM t ORDER BY timestamp DESC LIMIT 100] *)
Definition select_recent {A} (key : A -> Z) (rows : list A) : list A :=
  firstn 100 (sort_desc key rows).

(** sqlite3 stores a [datetime] as the text of [isoformat(" ")], which
    has a fractional part ".ffffff" exactly when the microsecond is not 0.
    Text of this fixed-width form sorts in time order, so [ORDER BY
    timestamp DESC] is the order of the instants. *)
Definition iso_fraction (t : Z) : bool := negb (Z.eqb (Z.modulo t 1000000) 0).

(** [pd.to_datetime] on a column of such texts (pandas 2): the format is
    inferred from the first element and every other element must match
    it, so a column mixing whole-second and fractional texts raises. *)
Definition to_datetime_ok (ts : list Z) : bool :=
  match ts with
  | [] => true
  | t :: rest => forallb (fun u => Bool.eqb (iso_fraction u) (iso_fraction t)) rest
  end.

(** [load_data]: [(None, None)] when the connection fails or a statement
    of the [try] raises (a missing table, or [pd.to_datetime] on a frame
    whose timestamps mix the two text forms); otherwise both frames. *)
Definition load_data (s : Store)
  : option (list FuelRow) * option (list CurrencyRow) :=
  if db_reachable s then
    match db_fuel s with
    | None => (None, None)
    | Some fs =>
        let fuel_df := select_recent fr_timestamp fs in
        if to_datetime_ok (map fr_timestamp fuel_df) then
          match db_currency s with
          | None => (None, None)
          | Some cs =>
              let currency_df := select_recent cr_timestamp cs in
              if to_datetime_ok (map cr_timestamp currency_df)
              then (Some fuel_df, Some currency_df)
              else (None, None)
          end
        else (None, None)
    end
  else (None, None).

(** ** Change calculator ([calculate_price_changes]) *)

(** A numpy float64 result: division by a zero previous value gives an
    infinity or NaN, not an exception. *)
Inductive FVal :=
| Fin (q : Q)
| PosInf
| NegInf
| NaN.

(** [(latest - previous) / previous * 100] on float64 values. *)
Definition pct_change (latest previous : Q) : FVal :=
  if Qeq_bool previous 0 then
    match Qcompare (latest - previous) 0 with
    | Gt => PosInf
    | Lt => NegInf
    | Eq => NaN
    end
  else Fin ((latest - previous) / previous * 100).

Abbreviation Changes := (gmap string FVal).

Definition fuel_changes (fuel_df : list FuelRow) (m : Changes) : Changes :=
  match fuel_df with
  | latest_fuel :: previous_fuel :: _ =>
      <["wti_change" := pct_change (fr_wti_crude latest_fuel) (fr_wti_crude previous_fuel)]>
      (<["brent_change" := pct_change (fr_brent_crude latest_fuel) (fr_brent_crude previous_fuel)]>
       (<["jet_fuel_change" := pct_change (fr_jet_fuel latest_fuel) (fr_jet_fuel previous_fuel)]> m))
  | _ => m
  end.

Definition currency_changes (currency_df : list CurrencyRow) (m : Changes) : Changes :=
  match currency_df with
  | latest_currency :: previous_currency :: _ =>
      <["jpy_inr_change" := pct_change (cr_jpy_inr latest_currency) (cr_jpy_inr previous_currency)]>
      (<["gbp_inr_change" := pct_change (cr_gbp_inr latest_currency) (cr_gbp_inr previous_currency)]>
       (<["eur_inr_change" := pct_change (cr_eur_inr latest_currency) (cr_eur_inr previous_currency)]>
        (<["usd_inr_change" := pct_change (cr_usd_inr latest_currency) (cr_usd_inr previous_currency)]> m)))
  | _ => m
  end.

(** [calculate_price_changes]: the frames arrive newest first. *)
Definition calculate_price_changes (fuel_df : list FuelRow)
  (currency_df : list CurrencyRow) : Changes :=
  match fuel_df, currency_df with
  | [], _ | _, [] => ∅
  | _, _ => currency_changes currency_df (fuel_changes fuel_df ∅)
  end.

(** ** Signal classifier (hedging recommendations of [main]) *)

(** Float64 comparisons and [abs] against a constant. *)
Definition fv_gt (v : FVal) (q : Q) : bool :=
  match v with
  | Fin x => if Qlt_le_dec q x then true else false
  | PosInf => true
  | NegInf | NaN => false
  end.

Definition fv_lt (v : FVal) (q : Q) : bool :=
  match v with
  | Fin x => if Qlt_le_dec x q then true else false
  | NegInf => true
  | PosInf | NaN => false
  end.

Definition fv_abs (v : FVal) : FVal :=
  match v with
  | Fin x => Fin (Qabs x)
  | PosInf | NegInf => PosInf
  | NaN => NaN
  end.

(** [changes.get(k, 0)] *)
Definition changes_get (m : Changes) (k : string) : FVal :=
  match m !! k with Some v => v | None => Fin 0 end.

Inductive FuelSignal := HIGH_HEDGE | MODERATE_HEDGE | LOW_HEDGE | MONITOR.

Inductive CurrencySignal := HIGH_VOLATILITY | MODERATE_VOLATILITY | STABLE.

Definition fuel_signal (jet_change : FVal) : FuelSignal :=
  if fv_gt jet_change 2 then HIGH_HEDGE
  else if fv_gt jet_change 0.5 then MODERATE_HEDGE
  else if fv_lt jet_change (-1) then LOW_HEDGE
  else MONITOR.

Definition currency_signal (usd_change : FVal) : CurrencySignal :=
  if fv_gt (fv_abs usd_change) 1 then HIGH_VOLATILITY
  else if fv_gt (fv_abs usd_change) 0.3 then MODERATE_VOLATILITY
  else STABLE.

Definition fuel_hedging_analysis (changes : Changes) : FuelSignal :=
  fuel_signal (changes_get changes "jet_fuel_change").

Definition currency_hedging_analysis (changes : Changes) : CurrencySignal :=
  currency_signal (changes_get changes "usd_inr_change").

(** ** Dashboard ([main] of [app.py], rendering left out) *)

(** [df['timestamp'].max()] of a non-empty frame. *)
Definition frame_max {A} (key : A -> Z) (r : A) (rs : list A) : Z :=
  fold_left (fun m x => Z.max m (key x)) rs (key r).

Inductive Freshness := FRESH | MINUTES_OLD | HOURS_OLD.

(** The data-freshness banner: [age = now - latest_ts] in microseconds,
    so [age.total_seconds() < 300] is [age < 300 * 10^6]. *)
Definition freshness (now latest_ts : Z) : Freshness :=
  let age := (now - latest_ts)%Z in
  if Z.ltb age 300000000 then FRESH
  else if Z.ltb age 3600000000 then MINUTES_OLD
  else HOURS_OLD.

(** What [main] shows: the load error, the no-data warning, or the
    analysis: the four metric deltas ([changes.get(k, 0)]), the four
    latest values ([iloc[0]]), the freshness banner and the two hedging
    recommendations. *)
Inductive Dashboard :=
| LoadError
| NoData
| Analysis (jet_delta usd_delta brent_delta eur_delta : FVal)
    (latest_jet latest_usd latest_brent latest_eur : Q)
    (fresh : Freshness) (fuel_rec : FuelSignal) (currency_rec : CurrencySignal).

Definition dashboard (s : Store) (now : Z) : Dashboard :=
  match load_data s with
  | (Some fuel_df, Some currency_df) =>
      match fuel_df, currency_df with
      | f1 :: fr, c1 :: cr =>
          let changes := calculate_price_changes fuel_df currency_df in
          Analysis (changes_get changes "jet_fuel_change")
            (changes_get changes "usd_inr_change")
            (changes_get changes "brent_change")
            (changes_get changes "eur_inr_change")
            (fr_jet_fuel f1) (cr_usd_inr c1) (fr_brent_crude f1) (cr_eur_inr c1)
            (freshness now (Z.max (frame_max fr_timestamp f1 fr)
                                  (frame_max cr_timestamp c1 cr)))
            (fuel_hedging_analysis changes) (currency_hedging_analysis changes)
      | _, _ => NoData
      end
  | _ => LoadError
  end.

(** ** Readings of the spec's words, to compare with the code *)

(** The fuel bands as the spec lists them. *)
Definition fuel_band_spec (c : Q) : FuelSignal :=
  if Qlt_le_dec 2 c then HIGH_HEDGE
  else if Qlt_le_dec 0.5 c then MODERATE_HEDGE
  else if Qlt_le_dec c (-1) then LOW_HEDGE
  else MONITOR.

(** The currency bands as the spec lists them, on [|c|]. *)
Definition currency_band_spec (c : Q) : CurrencySignal :=
  if Qlt_le_dec 1 (Qabs c) then HIGH_VOLATILITY
  else if Qlt_le_dec 0.3 (Qabs c) then MODERATE_VOLATILITY
  else STABLE.

(** * Properties *)

(** ** Signal classifier *)

(** C4: on every finite change value the fuel classifier follows the
    bands c > 2, 0.5 < c <= 2, c < -1, otherwise, and the currency
    classifier the bands |c| > 1, 0.3 < |c| <= 1, otherwise; the literal
    cases of the spec come out as listed. *)
Theorem signal_bands :
  (forall c : Q, fuel_signal (Fin c) = fuel_band_spec c
                 /\ currency_signal (Fin c) = currency_band_spec c)
  /\ fuel_signal (Fin 2.5) = HIGH_HEDGE
  /\ fuel_signal (Fin 1.0) = MODERATE_HEDGE
  /\ fuel_signal (Fin (-1.5)) = LOW_HEDGE
  /\ fuel_signal (Fin 0.1) = MONITOR
  /\ currency_signal (Fin 1.2) = HIGH_VOLATILITY
  /\ currency_signal (Fin (-0.5)) = MODERATE_VOLATILITY
  /\ currency_signal (Fin 0.1) = STABLE.
Proof.
  split; [|vm_compute; repeat split].
  intros c; split.
  - unfold fuel_signal, fuel_band_spec, fv_gt, fv_lt.
    destruct (Qlt_le_dec 2 c); [reflexivity|].
    destruct (Qlt_le_dec 0.5 c); [reflexivity|].
    destruct (Qlt_le_dec c (-1)); reflexivity.
  - unfold currency_signal, currency_band_spec, fv_gt, fv_abs.
    destruct (Qlt_le_dec 1 (Qabs c)); [reflexivity|].
    destruct (Qlt_le_dec 0.3 (Qabs c)); reflexivity.
Qed.

(** ** Live fuel path *)

(** C2: when both benchmark frames are non-empty, the fuel fetch returns
    the live dict: [jet_fuel = round((brent + wti) / 2 * 1.35, 6)] and the
    benchmarks rounded to 2 decimals, [brent] and [wti] being the last
    closes. *)
Theorem live_fuel_derivation (RState : Type) (rand : RState -> Q * RState)
    (b : Q) (bs : list Q) (w : Q) (ws : list Q) (now : Z) (st : RState) :
  let brent := last_close (b :: bs) in
  let wti := last_close (w :: ws) in
  exists d,
    get_live_fuel_prices RState rand (HFrame (b :: bs)) (HFrame (w :: ws)) now st
      = (Some d, st)
    /\ d !! "jet_fuel" = Some (VNum (py_round ((brent + wti) / 2 * 1.35) 6))
    /\ d !! "brent_crude" = Some (VNum (py_round brent 2))
    /\ d !! "wti_crude" = Some (VNum (py_round wti 2)).
Proof.
  intros brent wti. eexists. split; [reflexivity|].
  unfold live_fuel_dict. cbv zeta. repeat split.
  all: rewrite ?lookup_insert_ne by done; rewrite ?lookup_insert_eq; reflexivity.
Qed.

(** ** Rounding stays between decimal bounds *)

Lemma round_half_even_between (q : Q) (A B : Z) :
  inject_Z A <= q -> q <= inject_Z B -> (A <= round_half_even q <= B)%Z.
Proof.
  intros HA HB. unfold round_half_even. set (f := Qfloor q).
  assert (Hf1 : (A <= f)%Z)
    by (rewrite <- (Qfloor_Z A); apply Qfloor_resp_le; exact HA).
  assert (Hf2 : (f <= B)%Z)
    by (rewrite <- (Qfloor_Z B); apply Qfloor_resp_le; exact HB).
  assert (Hstep : (1 # 2) <= q - inject_Z f -> (f + 1 <= B)%Z).
  { intros H. assert (Hlt : inject_Z f < inject_Z B) by lra.
    rewrite <- Zlt_Qlt in Hlt. lia. }
  destruct (Qcompare (q - inject_Z f) (1 # 2)) eqn:E.
  - apply Qeq_alt in E. destruct (Z.even f).
    + lia.
    + assert (f + 1 <= B)%Z by (apply Hstep; rewrite E; apply Qle_refl). lia.
  - lia.
  - apply Qgt_alt in E.
    assert (f + 1 <= B)%Z by (apply Hstep; apply Qlt_le_weak; exact E). lia.
Qed.

Lemma pow10_pos (n : Z) : (0 <= n)%Z -> 0 < inject_Z (10 ^ n).
Proof.
  intros Hn. change 0 with (inject_Z 0). rewrite <- Zlt_Qlt.
  apply Z.pow_pos_nonneg; lia.
Qed.

Lemma py_round_between (x : Q) (n A B : Z) :
  (0 <= n)%Z ->
  inject_Z A <= x * inject_Z (10 ^ n) -> x * inject_Z (10 ^ n) <= inject_Z B ->
  inject_Z A / inject_Z (10 ^ n) <= py_round x n
  /\ py_round x n <= inject_Z B / inject_Z (10 ^ n).
Proof.
  intros Hn HA HB. unfold py_round.
  pose proof (pow10_pos n Hn) as Hs.
  destruct (round_half_even_between _ _ _ HA HB) as [H1 H2].
  rewrite Zle_Qle in H1, H2.
  assert (Hi : 0 <= / inject_Z (10 ^ n)) by (apply Qinv_le_0_compat; lra).
  unfold Qdiv. split; apply Qmult_le_compat_r; assumption.
Qed.

(** [round(random.uniform(a, b), n)] lies in [[a, b]] when both ends have
    at most [n] decimals. *)
Lemma uniform_round_between (a b r : Q) (n A B : Z) :
  (0 <= n)%Z -> 0 <= r -> r < 1 -> a <= b ->
  a * inject_Z (10 ^ n) == inject_Z A -> b * inject_Z (10 ^ n) == inject_Z B ->
  a <= py_round (a + (b - a) * r) n /\ py_round (a + (b - a) * r) n <= b.
Proof.
  intros Hn Hr0 Hr1 Hab HA HB.
  pose proof (pow10_pos n Hn) as Hs.
  set (s := inject_Z (10 ^ n)) in *.
  assert (Hx1 : a <= a + (b - a) * r) by nra.
  assert (Hx2 : a + (b - a) * r <= b) by nra.
  destruct (py_round_between (a + (b - a) * r) n A B Hn) as [H1 H2].
  - rewrite <- HA. apply Qmult_le_compat_r; [exact Hx1 | apply Qlt_le_weak; exact Hs].
  - rewrite <- HB. apply Qmult_le_compat_r; [exact Hx2 | apply Qlt_le_weak; exact Hs].
  - fold s in H1, H2.
    assert (Ea : inject_Z A / s == a) by (rewrite <- HA; field; lra).
    assert (Eb : inject_Z B / s == b) by (rewrite <- HB; field; lra).
    rewrite Ea in H1. rewrite Eb in H2. split; assumption.
Qed.

(** ** Fallback generators *)

Ltac qle_eval := apply Qle_bool_imp_le; reflexivity.

Section Fallback.

Variable RState : Type.
Variable rand : RState -> Q * RState.
(** [random.random()] returns a value in [[0, 1)], whatever came before. *)
Hypothesis rand_range : forall st, 0 <= fst (rand st) /\ fst (rand st) < 1.

Ltac draw st :=
  let r := fresh "r" in let st' := fresh "st" in let E := fresh "E" in
  let H := fresh "H" in
  destruct (rand st) as [r st'] eqn:E;
  pose proof (rand_range st) as H; rewrite E in H; simpl in H.

Ltac field_bound A B n :=
  apply (uniform_round_between _ _ _ n A B);
  [ lia | tauto | tauto | qle_eval | reflexivity | reflexivity ].

(** C6: from any generator state, both fallback generators return their
    complete dict, and every rounded field lies in its closed interval:
    jet_fuel in [2.3, 2.6], brent_crude in [60, 70], wti_crude in
    [55, 65]; usd_inr in [88, 90], eur_inr in [102, 105], gbp_inr in
    [117, 120], jpy_inr in [0.57, 0.58]. *)
Theorem fallback_within_bounds (now : Z) (st : RState) :
  (exists j b w st',
     get_fallback_fuel_prices RState rand now st =
       (<["jet_fuel" := VNum j]> (<["brent_crude" := VNum b]>
         (<["wti_crude" := VNum w]> (<["timestamp" := VTime now]> (∅ : Dict)))), st')
     /\ (2.3 <= j /\ j <= 2.6) /\ (60 <= b /\ b <= 70) /\ (55 <= w /\ w <= 65))
  /\ (exists u e g y st',
     get_fallback_currency_rates RState rand now st =
       (<["usd_inr" := VNum u]> (<["eur_inr" := VNum e]> (<["gbp_inr" := VNum g]>
         (<["jpy_inr" := VNum y]> (<["timestamp" := VTime now]> (∅ : Dict))))), st')
     /\ (88 <= u /\ u <= 90) /\ (102 <= e /\ e <= 105) /\ (117 <= g /\ g <= 120)
     /\ (0.57 <= y /\ y <= 0.58)).
Proof.
  split.
  - unfold get_fallback_fuel_prices, uniform.
    draw st. draw st0. draw st1.
    do 4 eexists. split; [reflexivity|].
    split; [|split]; [field_bound 2300000%Z 2600000%Z 6%Z
                     | field_bound 6000%Z 7000%Z 2%Z
                     | field_bound 5500%Z 6500%Z 2%Z].
  - unfold get_fallback_currency_rates, uniform.
    draw st. draw st0. draw st1. draw st2.
    do 5 eexists. split; [reflexivity|].
    split; [|split; [|split]]; [field_bound 8800%Z 9000%Z 2%Z
                               | field_bound 10200%Z 10500%Z 2%Z
                               | field_bound 11700%Z 12000%Z 2%Z
                               | field_bound 570000%Z 580000%Z 6%Z].
Qed.

End Fallback.

(** A generator state that always draws one half. *)
Definition half_rand (u : unit) : Q * unit := (1 # 2, u).

Lemma half_rand_range : forall st, 0 <= fst (half_rand st) /\ fst (half_rand st) < 1.
Proof. intros st. split; [qle_eval | reflexivity]. Qed.

(** ** Shapes of the fetched observations *)

(** The dict every fuel path builds. *)
Definition fuel_shape (d : Dict) : Prop :=
  exists j b w t,
    d = <["jet_fuel" := VNum j]> (<["brent_crude" := VNum b]>
          (<["wti_crude" := VNum w]> (<["timestamp" := VTime t]> (∅ : Dict)))).

(** The dict every currency path builds. *)
Definition currency_shape (d : Dict) : Prop :=
  exists u e g y t,
    d = <["usd_inr" := VNum u]> (<["eur_inr" := VNum e]> (<["gbp_inr" := VNum g]>
          (<["jpy_inr" := VNum y]> (<["timestamp" := VTime t]> (∅ : Dict))))).

Lemma fallback_fuel_shape {RState} (rand : RState -> Q * RState) now st :
  exists d st', get_fallback_fuel_prices RState rand now st = (d, st') /\ fuel_shape d.
Proof.
  unfold get_fallback_fuel_prices, uniform.
  destruct (rand st) as [r1 s1]. destruct (rand s1) as [r2 s2].
  destruct (rand s2) as [r3 s3].
  do 2 eexists. split; [reflexivity|]. do 4 eexists. reflexivity.
Qed.

Lemma fallback_currency_shape {RState} (rand : RState -> Q * RState) now st :
  exists d st', get_fallback_currency_rates RState rand now st = (d, st')
                /\ currency_shape d.
Proof.
  unfold get_fallback_currency_rates, uniform.
  destruct (rand st) as [r1 s1]. destruct (rand s1) as [r2 s2].
  destruct (rand s2) as [r3 s3]. destruct (rand s3) as [r4 s4].
  do 2 eexists. split; [reflexivity|]. do 5 eexists. reflexivity.
Qed.

Lemma get_live_fuel_shape {RState} (rand : RState -> Q * RState) brent wti now st :
  exists d st', get_live_fuel_prices RState rand brent wti now st = (Some d, st')
                /\ fuel_shape d.
Proof.
  destruct (fallback_fuel_shape rand now st) as (d0 & st0 & Efb & Sfb).
  unfold get_live_fuel_prices.
  destruct brent as [|[|b bs]], wti as [|[|w ws]]; rewrite ?Efb; eauto.
  do 2 eexists. split; [reflexivity|]. do 4 eexists. reflexivity.
Qed.

Lemma source_a_shape r now d : source_a r now = Some d -> currency_shape d.
Proof.
  unfold source_a. destruct r as [|status [rates|]]; try discriminate.
  destruct (Z.eqb status 200); [|discriminate].
  destruct (py_div _ (dict_get rates "EUR" 0.85)); [|discriminate]. simpl.
  destruct (py_div _ (dict_get rates "GBP" 0.73)); [|discriminate]. simpl.
  destruct (py_div _ (dict_get rates "JPY" 110.0)); [|discriminate]. simpl.
  intros E. injection E as <-. do 5 eexists. reflexivity.
Qed.

Lemma source_b_shape usd eur gbp jpy now d :
  source_b usd eur gbp jpy now = Some d -> currency_shape d.
Proof.
  unfold source_b.
  destruct usd as [|[|u us]], eur, gbp, jpy; try discriminate.
  intros E. injection E as <-. do 5 eexists. reflexivity.
Qed.

Lemma get_live_currency_shape {RState} (rand : RState -> Q * RState)
    a usd eur gbp jpy now st :
  exists d st', get_live_currency_rates RState rand a usd eur gbp jpy now st = (Some d, st')
                /\ currency_shape d.
Proof.
  unfold get_live_currency_rates.
  destruct (source_a a now) as [d|] eqn:Ea.
  { exists d, st. split; [reflexivity|]. eapply source_a_shape; eauto. }
  destruct (source_b usd eur gbp jpy now) as [d|] eqn:Eb.
  { exists d, st. split; [reflexivity|]. eapply source_b_shape; eauto. }
  destruct (fallback_currency_shape rand now st) as (d0 & st0 & Efb & Sfb).
  rewrite Efb. eauto.
Qed.

Lemma fuel_shape_dom d :
  fuel_shape d -> dom d = {[ "jet_fuel"; "brent_crude"; "wti_crude"; "timestamp" ]}.
Proof.
  intros (j & b & w & t & ->). rewrite !dom_insert_L, dom_empty_L. set_solver.
Qed.

Lemma currency_shape_dom d :
  currency_shape d ->
  dom d = {[ "usd_inr"; "eur_inr"; "gbp_inr"; "jpy_inr"; "timestamp" ]}.
Proof.
  intros (u & e & g & y & t & ->). rewrite !dom_insert_L, dom_empty_L. set_solver.
Qed.

(** A store that accepts writes. *)
Definition healthy_store (fs : list FuelRow) (cs : list CurrencyRow) : Store :=
  {| db_reachable := true; db_writable := true;
     db_fuel := Some fs; db_currency := Some cs |}.

Lemma store_try_shapes f c fs cs :
  fuel_shape f -> currency_shape c -> is_Some (store_try (healthy_store fs cs) f c).
Proof.
  intros (j & b & w & t & ->) (u & e & g & y & t' & ->).
  unfold store_try, time_field, num_field. simplify_map_eq. simpl.
  eexists. reflexivity.
Qed.

Lemma shapes_report_ok f c : fuel_shape f -> currency_shape c -> report_ok f c = true.
Proof.
  intros (j & b & w & t & ->) (u & e & g & y & t' & ->).
  unfold report_ok. simplify_map_eq. reflexivity.
Qed.

Lemma shapes_truthy f c :
  fuel_shape f -> currency_shape c -> truthy (Some f) && truthy (Some c) = true.
Proof.
  intros (j & b & w & t & ->) (u & e & g & y & t' & ->).
  unfold truthy. rewrite !bool_decide_eq_true_2; [reflexivity| |];
  apply insert_non_empty.
Qed.

(** ** Fetchers never return None *)

(** C10: on every path (live, secondary source or fallback) both fetchers
    return a dict, never [None]; the fuel dict has exactly the keys
    jet_fuel, brent_crude, wti_crude, timestamp, the currency dict exactly
    usd_inr, eur_inr, gbp_inr, jpy_inr, timestamp, and every field access
    of the writer succeeds on them. *)
Theorem fetchers_return_complete_dicts (RState : Type) (rand : RState -> Q * RState)
    (brent wti : Hist) (a : RespA) (usd eur gbp jpy : Hist) (now : Z) (st : RState) :
  exists f st1 c st2,
    get_live_fuel_prices RState rand brent wti now st = (Some f, st1)
    /\ get_live_currency_rates RState rand a usd eur gbp jpy now st1 = (Some c, st2)
    /\ dom f = {[ "jet_fuel"; "brent_crude"; "wti_crude"; "timestamp" ]}
    /\ dom c = {[ "usd_inr"; "eur_inr"; "gbp_inr"; "jpy_inr"; "timestamp" ]}
    /\ forall fs cs, is_Some (store_try (healthy_store fs cs) f c).
Proof.
  destruct (get_live_fuel_shape rand brent wti now st) as (f & st1 & Ef & Sf).
  destruct (get_live_currency_shape rand a usd eur gbp jpy now st1)
    as (c & st2 & Ec & Sc).
  exists f, st1, c, st2.
  split; [exact Ef|]. split; [exact Ec|].
  split; [apply fuel_shape_dom; exact Sf|].
  split; [apply currency_shape_dom; exact Sc|].
  intros fs cs. apply store_try_shapes; assumption.
Qed.

(** ** Collection cycle and write failures *)

(** Everything answers: both benchmarks and source A. *)
Definition live_env : Env :=
  {| env_brent := HFrame [80]; env_wti := HFrame [75];
     env_rates := AResp 200 (Some (<["INR" := 83]> (<["EUR" := 0.85]>
                    (<["GBP" := 0.73]> (<["JPY" := 110]> ∅)))));
     env_usd := HFrame []; env_eur := HFrame []; env_gbp := HFrame [];
     env_jpy := HFrame []; env_fuel_now := 1000; env_currency_now := 1200 |}.

(** A database file that cannot be opened. *)
Definition unreachable_store : Store :=
  {| db_reachable := false; db_writable := true;
     db_fuel := Some []; db_currency := Some [] |}.

(** A database whose fuel table exists and whose currency table does not:
    the fuel insert goes through, the currency insert raises. *)
Definition missing_currency_table : Store :=
  {| db_reachable := true; db_writable := true;
     db_fuel := Some []; db_currency := None |}.

(** C1 (as stated, refuted): when the database cannot be opened, or when
    the second insert is rejected, the cycle still reports success, not
    failure. *)
Lemma write_failure_reported_as_success :
  collect_and_store_realtime_data unit half_rand live_env unreachable_store tt
    = (true, unreachable_store, tt)
  /\ collect_and_store_realtime_data unit half_rand live_env missing_currency_table tt
    = (true, missing_currency_table, tt).
Proof. split; vm_compute; reflexivity. Qed.

(** C1 (amended): when the write fails (connection, a missing table or a
    rejected insert), the writer swallows the error: the cycle returns
    [true], the store is left exactly as it was (neither row of the cycle
    is kept, the first insert being rolled back with the uncommitted
    transaction), and the fetched values are not written again. *)
Theorem write_failure_swallowed (RState : Type) (rand : RState -> Q * RState)
    (env : Env) (s : Store) (st st1 st2 : RState) (f c : Dict) :
  get_live_fuel_prices RState rand (env_brent env) (env_wti env) (env_fuel_now env) st
    = (Some f, st1) ->
  get_live_currency_rates RState rand (env_rates env) (env_usd env) (env_eur env)
    (env_gbp env) (env_jpy env) (env_currency_now env) st1 = (Some c, st2) ->
  store_try s f c = None ->
  collect_and_store_realtime_data RState rand env s st = (true, s, st2).
Proof.
  intros Ef Ec Hw.
  destruct (get_live_fuel_shape rand (env_brent env) (env_wti env) (env_fuel_now env) st)
    as (f' & st1' & Ef' & Sf).
  rewrite Ef in Ef'. injection Ef' as <- <-.
  destruct (get_live_currency_shape rand (env_rates env) (env_usd env) (env_eur env)
              (env_gbp env) (env_jpy env) (env_currency_now env) st1) as (c' & st2' & Ec' & Sc).
  rewrite Ec in Ec'. injection Ec' as <- <-.
  unfold collect_and_store_realtime_data. rewrite Ef, Ec.
  rewrite (shapes_truthy f c Sf Sc).
  unfold store_data_in_database. rewrite Hw.
  rewrite (shapes_report_ok f c Sf Sc). reflexivity.
Qed.

Lemma write_failure_swallowed_witness :
  collect_and_store_realtime_data unit half_rand live_env unreachable_store tt
    = (true, unreachable_store, tt).
Proof.
  apply (write_failure_swallowed unit half_rand live_env unreachable_store tt tt tt
           (live_fuel_dict 80 75 1000)
           (<["usd_inr" := VNum (py_round 83 2)]>
            (<["eur_inr" := VNum (py_round (83 / 0.85) 2)]>
             (<["gbp_inr" := VNum (py_round (83 / 0.73) 2)]>
              (<["jpy_inr" := VNum (py_round (83 / 110) 6)]>
               (<["timestamp" := VTime 1200]> (∅ : Dict))))))).
  - reflexivity.
  - vm_compute. reflexivity.
  - reflexivity.
Defined.

Lemma fallback_within_bounds_witness :
  (forall st, 0 <= fst (half_rand st) /\ fst (half_rand st) < 1)
  /\ exists j b w st',
     get_fallback_fuel_prices unit half_rand 0 tt =
       (<["jet_fuel" := VNum j]> (<["brent_crude" := VNum b]>
         (<["wti_crude" := VNum w]> (<["timestamp" := VTime 0]> (∅ : Dict)))), st')
     /\ (2.3 <= j /\ j <= 2.6) /\ (60 <= b /\ b <= 70) /\ (55 <= w /\ w <= 65).
Proof.
  split; [exact half_rand_range|].
  exact (proj1 (fallback_within_bounds unit half_rand half_rand_range 0%Z tt)).
Defined.

(** ** Currency source B *)

(** C7 (as stated, refuted): with source A down, an empty USD/INR frame
    does not get a default; source B yields nothing and the fallback
    generator's values are returned (EUR/INR is not the live 91.25).
    A raising EUR/INR quote likewise abandons source B as a whole. *)
Lemma source_b_not_per_pair :
  source_b (HFrame []) (HFrame [91.25]) (HFrame [106.5]) (HFrame [0.56]) 1000 = None
  /\ get_live_currency_rates unit half_rand ARaise (HFrame []) (HFrame [91.25])
       (HFrame [106.5]) (HFrame [0.56]) 1000 tt
     = (Some (fst (get_fallback_currency_rates unit half_rand 1000 tt)), tt)
  /\ (fst (get_fallback_currency_rates unit half_rand 1000 tt)) !! "eur_inr"
     <> Some (VNum (py_round 91.25 2))
  /\ source_b (HFrame [83.1]) HRaise (HFrame [106.5]) (HFrame [0.56]) 1000 = None.
Proof.
  split; [reflexivity|]. split; [reflexivity|]. split; [|reflexivity].
  vm_compute. discriminate.
Qed.

(** C7 (amended): when source A yields nothing, and the USD/INR frame is
    non-empty and none of the four quote calls raises, the fetch returns
    source B's dict, in which each of EUR, GBP and JPY with an empty
    frame takes its literal default (90.0, 105.0, 0.55) and each other
    pair keeps its rounded live close. When the USD/INR frame is empty or
    any of the four calls raises, source B is abandoned and the fallback
    generator's dict is returned. *)
Theorem source_b_defaults (RState : Type) (rand : RState -> Q * RState)
    (a : RespA) (now : Z) (st : RState) :
  source_a a now = None ->
  (forall (u : Q) (us es gs js : list Q),
     exists d,
       get_live_currency_rates RState rand a (HFrame (u :: us)) (HFrame es)
         (HFrame gs) (HFrame js) now st = (Some d, st)
       /\ d !! "usd_inr" = Some (VNum (py_round (last_close (u :: us)) 2))
       /\ d !! "eur_inr" = Some (VNum (match es with
                                      | [] => 90.0
                                      | _ => py_round (last_close es) 2 end))
       /\ d !! "gbp_inr" = Some (VNum (match gs with
                                      | [] => 105.0
                                      | _ => py_round (last_close gs) 2 end))
       /\ d !! "jpy_inr" = Some (VNum (match js with
                                      | [] => 0.55
                                      | _ => py_round (last_close js) 6 end)))
  /\ (forall usd eur gbp jpy : Hist,
        usd = HFrame [] \/ usd = HRaise \/ eur = HRaise \/ gbp = HRaise
        \/ jpy = HRaise ->
        get_live_currency_rates RState rand a usd eur gbp jpy now st
          = (Some (fst (get_fallback_currency_rates RState rand now st)),
             snd (get_fallback_currency_rates RState rand now st))).
Proof.
  intros Ha. split.
  - intros u us es gs js. unfold get_live_currency_rates. rewrite Ha.
    eexists. split; [reflexivity|].
    repeat split; by simplify_map_eq.
  - intros usd eur gbp jpy Hfail. unfold get_live_currency_rates. rewrite Ha.
    assert (Hb : source_b usd eur gbp jpy now = None).
    { unfold source_b.
      destruct Hfail as [->|[->|[->|[->| ->]]]];
        repeat match goal with h : Hist |- _ => destruct h end; reflexivity. }
    rewrite Hb. destruct (get_fallback_currency_rates RState rand now st). reflexivity.
Qed.

Lemma source_b_defaults_witness :
  source_a ARaise 1000 = None
  /\ exists d,
       get_live_currency_rates unit half_rand ARaise (HFrame [83.1]) (HFrame [])
         (HFrame [106.5]) (HFrame []) 1000 tt = (Some d, tt)
       /\ d !! "usd_inr" = Some (VNum (py_round (last_close [83.1]) 2))
       /\ d !! "eur_inr" = Some (VNum 90.0)
       /\ d !! "gbp_inr" = Some (VNum (py_round (last_close [106.5]) 2))
       /\ d !! "jpy_inr" = Some (VNum 0.55).
Proof.
  split; [reflexivity|].
  exact (proj1 (source_b_defaults unit half_rand ARaise 1000 tt eq_refl)
           83.1 [] [] [106.5] []).
Defined.

(** ** Currency source A *)

Lemma py_div_nonzero (a b : Q) : ~ b == 0 -> py_div a b = Some (a / b).
Proof.
  intros Hb. unfold py_div. destruct (Qeq_bool b 0) eqn:E; [|reflexivity].
  apply Qeq_bool_iff in E. contradiction.
Qed.

(** C8: when the rate table has INR, EUR, GBP and JPY entries (the
    divisors non-zero), the fetch returns source A's dict: usd_inr is the
    INR rate rounded to 2 decimals, eur_inr and gbp_inr are INR / EUR and
    INR / GBP rounded to 2, jpy_inr is INR / JPY rounded to 6. *)
Theorem source_a_cross_rates (RState : Type) (rand : RState -> Q * RState)
    (rates : gmap string Q) (inr eur gbp jpy : Q) (usd eurh gbph jpyh : Hist)
    (now : Z) (st : RState) :
  rates !! "INR" = Some inr -> rates !! "EUR" = Some eur ->
  rates !! "GBP" = Some gbp -> rates !! "JPY" = Some jpy ->
  ~ eur == 0 -> ~ gbp == 0 -> ~ jpy == 0 ->
  exists d,
    get_live_currency_rates RState rand (AResp 200 (Some rates)) usd eurh gbph jpyh now st
      = (Some d, st)
    /\ d !! "usd_inr" = Some (VNum (py_round inr 2))
    /\ d !! "eur_inr" = Some (VNum (py_round (inr / eur) 2))
    /\ d !! "gbp_inr" = Some (VNum (py_round (inr / gbp) 2))
    /\ d !! "jpy_inr" = Some (VNum (py_round (inr / jpy) 6)).
Proof.
  intros Hi He Hg Hj He0 Hg0 Hj0.
  unfold get_live_currency_rates, source_a, dict_get. simpl.
  rewrite Hi, He, Hg, Hj.
  rewrite (py_div_nonzero _ _ He0). simpl.
  rewrite (py_div_nonzero _ _ Hg0). simpl.
  rewrite (py_div_nonzero _ _ Hj0). simpl.
  eexists. split; [reflexivity|].
  repeat split; by simplify_map_eq.
Qed.

(** The rate table of the spec's example. *)
Definition example_rates : gmap string Q :=
  <["INR" := 83.0]> (<["EUR" := 0.85]> (<["GBP" := 0.73]> (<["JPY" := 110.0]> ∅))).

Lemma source_a_cross_rates_witness :
  (exists d,
     get_live_currency_rates unit half_rand (AResp 200 (Some example_rates))
       (HFrame []) (HFrame []) (HFrame []) (HFrame []) 1000 tt = (Some d, tt)
     /\ d !! "usd_inr" = Some (VNum (py_round 83.0 2))
     /\ d !! "eur_inr" = Some (VNum (py_round (83.0 / 0.85) 2))
     /\ d !! "gbp_inr" = Some (VNum (py_round (83.0 / 0.73) 2))
     /\ d !! "jpy_inr" = Some (VNum (py_round (83.0 / 110.0) 6)))
  /\ py_round (83.0 / 0.85) 2 == 97.65.
Proof.
  split; [|reflexivity].
  apply (source_a_cross_rates unit half_rand example_rates 83.0 0.85 0.73 110.0);
    try reflexivity; intros H; vm_compute in H; discriminate H.
Defined.

(** ** Change calculator *)

Definition fuel_change_keys : list string :=
  ["jet_fuel_change"; "brent_change"; "wti_change"].

Definition currency_change_keys : list string :=
  ["usd_inr_change"; "eur_inr_change"; "gbp_inr_change"; "jpy_inr_change"].

(** Each change key with the field it is computed from. *)
Definition fuel_change_fields : list (string * (FuelRow -> Q)) :=
  [("jet_fuel_change", fr_jet_fuel); ("brent_change", fr_brent_crude);
   ("wti_change", fr_wti_crude)].

Definition currency_change_fields : list (string * (CurrencyRow -> Q)) :=
  [("usd_inr_change", cr_usd_inr); ("eur_inr_change", cr_eur_inr);
   ("gbp_inr_change", cr_gbp_inr); ("jpy_inr_change", cr_jpy_inr)].

Definition frow (jet brent wti : Q) (t : Z) : FuelRow :=
  {| fr_timestamp := t; fr_jet_fuel := jet; fr_brent_crude := brent;
     fr_wti_crude := wti |}.

Definition crow (usd eur gbp jpy : Q) (t : Z) : CurrencyRow :=
  {| cr_timestamp := t; cr_usd_inr := usd; cr_eur_inr := eur;
     cr_gbp_inr := gbp; cr_jpy_inr := jpy |}.

Lemma pct_change_nonzero (l p : Q) :
  ~ p == 0 -> pct_change l p = Fin ((l - p) / p * 100).
Proof.
  intros Hp. unfold pct_change. destruct (Qeq_bool p 0) eqn:E; [|reflexivity].
  apply Qeq_bool_iff in E. contradiction.
Qed.

(** C3 (as stated, refuted): an empty fuel frame removes the currency
    keys although the currency frame has two rows, and a zero previous
    jet-fuel value leaves the key in place with an infinite change. *)
Lemma change_keys_not_independent :
  calculate_price_changes []
    [crow 83.5 97 114 0.56 2; crow 83 97 114 0.56 1] !! "usd_inr_change" = None
  /\ calculate_price_changes [frow 2.55 65 60 2; frow 0 64 59 1]
       [crow 83 97 114 0.56 1] !! "jet_fuel_change" = Some PosInf.
Proof. split; vm_compute; reflexivity. Qed.

(** C3 (amended): [calculate_price_changes] is total; a key is present
    exactly when both frames are non-empty and the key belongs to a
    series with at least two rows. A zero previous value does not remove
    its key: the calculator's entry for it is then an infinity or NaN. *)
Theorem change_keys_present (fuel_df : list FuelRow)
    (currency_df : list CurrencyRow) (k : string) :
  (is_Some (calculate_price_changes fuel_df currency_df !! k) <->
     fuel_df <> [] /\ currency_df <> []
     /\ ((k ∈ fuel_change_keys /\ 2 <= length fuel_df)%nat
         \/ (k ∈ currency_change_keys /\ 2 <= length currency_df)%nat))
  /\ (forall lf pf fr c cs (get : FuelRow -> Q),
        In (k, get) fuel_change_fields -> get pf == 0 ->
        exists v, calculate_price_changes (lf :: pf :: fr) (c :: cs) !! k = Some v
                  /\ match v with Fin _ => False | _ => True end)
  /\ (forall f fs lc pc cr (get : CurrencyRow -> Q),
        In (k, get) currency_change_fields -> get pc == 0 ->
        exists v, calculate_price_changes (f :: fs) (lc :: pc :: cr) !! k = Some v
                  /\ match v with Fin _ => False | _ => True end).
Proof.
  split; [|split].
  - unfold fuel_change_keys, currency_change_keys.
    destruct fuel_df as [|f1 [|f2 fs]], currency_df as [|c1 [|c2 cs]];
      simpl; rewrite ?lookup_insert_is_Some', ?lookup_empty;
      rewrite ?elem_of_cons, ?elem_of_nil;
      split; intros H;
      repeat match goal with
             | H : is_Some None |- _ => destruct H as [? H]; discriminate H
             end;
      try (exfalso; congruence); naive_solver lia.
  - intros lf pf fr c cs get Hin Hz.
    assert (Hp : forall l, match pct_change l (get pf) with Fin _ => False | _ => True end).
    { intros l. unfold pct_change. rewrite (proj2 (Qeq_bool_iff _ _) Hz).
      destruct (_ ?= 0); exact I. }
    unfold calculate_price_changes, fuel_changes, currency_changes.
    simpl in Hin. destruct Hin as [[= <- <-]|[[= <- <-]|[[= <- <-]|[]]]];
      destruct cs as [|c2 cs]; (eexists; split; [by simplify_map_eq|apply Hp]).
  - intros f fs lc pc cr get Hin Hz.
    assert (Hp : forall l, match pct_change l (get pc) with Fin _ => False | _ => True end).
    { intros l. unfold pct_change. rewrite (proj2 (Qeq_bool_iff _ _) Hz).
      destruct (_ ?= 0); exact I. }
    unfold calculate_price_changes, fuel_changes, currency_changes.
    simpl in Hin.
    destruct Hin as [[= <- <-]|[[= <- <-]|[[= <- <-]|[[= <- <-]|[]]]]];
      destruct fs as [|f2 fs]; (eexists; split; [by simplify_map_eq|apply Hp]).
Qed.

Lemma change_keys_present_witness :
  (In ("jet_fuel_change", fr_jet_fuel) fuel_change_fields /\ fr_jet_fuel (frow 0 64 59 1) == 0)
  /\ exists v, calculate_price_changes [frow 2.55 65 60 2; frow 0 64 59 1]
                [crow 83 97 114 0.56 1] !! "jet_fuel_change" = Some v
              /\ match v with Fin _ => False | _ => True end.
Proof.
  split; [split; [left; reflexivity|reflexivity]|].
  exact (proj1 (proj2 (change_keys_present [] [] "jet_fuel_change"))
           (frow 2.55 65 60 2) (frow 0 64 59 1) [] (crow 83 97 114 0.56 1) [] fr_jet_fuel
           (or_introl eq_refl) (eq_refl : fr_jet_fuel (frow 0 64 59 1) == 0)).
Defined.

(** C5 (as stated, refuted): a fuel frame of two rows 2.55 / 2.50 with an
    empty currency frame yields no jet-fuel change at all. *)
Lemma change_absent_without_currency :
  calculate_price_changes [frow 2.55 65 60 2; frow 2.50 64 59 1] []
    !! "jet_fuel_change" = None.
Proof. vm_compute. reflexivity. Qed.

(** C5 (amended): when both frames are non-empty, a frame with at least
    two rows and non-zero previous values gives, for each of its
    instruments, (latest - previous) / previous * 100 with latest the
    first row and previous the second; when either frame is empty the
    mapping is empty. *)
Theorem change_formula (fuel_df : list FuelRow) (currency_df : list CurrencyRow) :
  (fuel_df <> [] -> currency_df <> [] ->
  (forall lf pf rest, fuel_df = lf :: pf :: rest ->
     ~ fr_jet_fuel pf == 0 -> ~ fr_brent_crude pf == 0 -> ~ fr_wti_crude pf == 0 ->
     let m := calculate_price_changes fuel_df currency_df in
     m !! "jet_fuel_change"
       = Some (Fin ((fr_jet_fuel lf - fr_jet_fuel pf) / fr_jet_fuel pf * 100))
     /\ m !! "brent_change"
       = Some (Fin ((fr_brent_crude lf - fr_brent_crude pf) / fr_brent_crude pf * 100))
     /\ m !! "wti_change"
       = Some (Fin ((fr_wti_crude lf - fr_wti_crude pf) / fr_wti_crude pf * 100)))
  /\ (forall lc pc rest, currency_df = lc :: pc :: rest ->
     ~ cr_usd_inr pc == 0 -> ~ cr_eur_inr pc == 0 -> ~ cr_gbp_inr pc == 0 ->
     ~ cr_jpy_inr pc == 0 ->
     let m := calculate_price_changes fuel_df currency_df in
     m !! "usd_inr_change"
       = Some (Fin ((cr_usd_inr lc - cr_usd_inr pc) / cr_usd_inr pc * 100))
     /\ m !! "eur_inr_change"
       = Some (Fin ((cr_eur_inr lc - cr_eur_inr pc) / cr_eur_inr pc * 100))
     /\ m !! "gbp_inr_change"
       = Some (Fin ((cr_gbp_inr lc - cr_gbp_inr pc) / cr_gbp_inr pc * 100))
     /\ m !! "jpy_inr_change"
       = Some (Fin ((cr_jpy_inr lc - cr_jpy_inr pc) / cr_jpy_inr pc * 100))))
  /\ (fuel_df = [] \/ currency_df = [] -> calculate_price_changes fuel_df currency_df = ∅).
Proof.
  split; [|intros [->| ->]; [reflexivity|destruct fuel_df; reflexivity]].
  intros Hf Hc. split.
  - intros lf pf rest -> H1 H2 H3 m. subst m.
    destruct currency_df as [|c1 [|c2 cs]]; [congruence| |];
      unfold calculate_price_changes, fuel_changes, currency_changes;
      rewrite !(pct_change_nonzero (fr_jet_fuel lf)), !(pct_change_nonzero (fr_brent_crude lf)),
        !(pct_change_nonzero (fr_wti_crude lf)) by assumption;
      repeat split; by simplify_map_eq.
  - intros lc pc rest -> H1 H2 H3 H4 m. subst m.
    destruct fuel_df as [|f1 [|f2 fs]]; [congruence| |];
      unfold calculate_price_changes, fuel_changes, currency_changes;
      rewrite !(pct_change_nonzero (cr_usd_inr lc)), !(pct_change_nonzero (cr_eur_inr lc)),
        !(pct_change_nonzero (cr_gbp_inr lc)), !(pct_change_nonzero (cr_jpy_inr lc))
        by assumption;
      repeat split; by simplify_map_eq.
Qed.

Lemma change_formula_witness :
  calculate_price_changes [frow 2.55 65 60 2; frow 2.50 64 59 1]
    [crow 83 97 114 0.56 1] !! "jet_fuel_change"
    = Some (Fin ((2.55 - 2.50) / 2.50 * 100))
  /\ (2.55 - 2.50) / 2.50 * 100 == 2
  /\ calculate_price_changes [frow 2.55 65 60 2; frow 2.50 64 59 1] [] = ∅.
Proof.
  split; [|split; [reflexivity|]].
  2: exact (proj2 (change_formula [frow 2.55 65 60 2; frow 2.50 64 59 1] [])
              (or_intror eq_refl)).
  refine (proj1 (proj1 (proj1 (change_formula [frow 2.55 65 60 2; frow 2.50 64 59 1]
                          [crow 83 97 114 0.56 1]) _ _) _ _ [] eq_refl _ _ _));
    try discriminate; intros H; vm_compute in H; discriminate H.
Defined.

(** ** Reader *)

Section SortDesc.

Context {A : Type} (key : A -> Z).

(** [x] is at least as recent as [y]. *)
Definition newer_eq (x y : A) : Prop := (key y <= key x)%Z.

Lemma insert_desc_perm (x : A) (l : list A) :
  Permutation (insert_desc key x l) (x :: l).
Proof.
  induction l as [|y l IH]; simpl; [reflexivity|].
  destruct (Z.leb (key y) (key x)); [reflexivity|].
  rewrite IH. apply perm_swap.
Qed.

Lemma sort_desc_perm (l : list A) : Permutation (sort_desc key l) l.
Proof.
  induction l as [|x l IH]; simpl; [reflexivity|].
  rewrite insert_desc_perm. apply perm_skip, IH.
Qed.

Lemma insert_desc_sorted (x : A) (l : list A) :
  StronglySorted newer_eq l -> StronglySorted newer_eq (insert_desc key x l).
Proof.
  induction l as [|y l IH]; intros Hs; simpl.
  - constructor; [constructor | constructor].
  - apply StronglySorted_inv in Hs as [Hl Hy].
    destruct (Z.leb (key y) (key x)) eqn:E.
    + apply Z.leb_le in E. constructor; [constructor; assumption|].
      constructor; [exact E|].
      rewrite List.Forall_forall in *. unfold newer_eq in *. intros z Hz.
      specialize (Hy z Hz). lia.
    + apply Z.leb_gt in E. constructor; [apply IH; exact Hl|].
      apply List.Forall_forall. intros z Hz.
      apply (Permutation_in _ (insert_desc_perm x l)) in Hz.
      destruct Hz as [<-|Hz].
      * unfold newer_eq. lia.
      * rewrite List.Forall_forall in Hy. apply Hy, Hz.
Qed.

Lemma sort_desc_sorted (l : list A) : StronglySorted newer_eq (sort_desc key l).
Proof.
  induction l as [|x l IH]; simpl; [constructor|].
  apply insert_desc_sorted, IH.
Qed.

Lemma sorted_app_l (a b : list A) :
  StronglySorted newer_eq (a ++ b) -> StronglySorted newer_eq a.
Proof.
  induction a as [|x a IH]; simpl; intros Hs; [constructor|].
  apply StronglySorted_inv in Hs as [Hs Hx]. constructor; [apply IH, Hs|].
  rewrite List.Forall_forall in *. intros y Hy. apply Hx, in_or_app. left; exact Hy.
Qed.

Lemma sorted_app_cross (a b : list A) :
  StronglySorted newer_eq (a ++ b) ->
  forall x y, In x a -> In y b -> newer_eq x y.
Proof.
  induction a as [|z a IH]; simpl; intros Hs x y Hx Hy; [contradiction|].
  apply StronglySorted_inv in Hs as [Hs Hz].
  destruct Hx as [<-|Hx].
  - rewrite List.Forall_forall in Hz. apply Hz, in_or_app. right; exact Hy.
  - eapply IH; eassumption.
Qed.

(** What "the most recent 100 records, newest first" means for [out]
    drawn from [rows]. *)
Definition newest_first_prefix (rows out : list A) : Prop :=
  length out = Nat.min 100 (length rows)
  /\ StronglySorted newer_eq out
  /\ exists rest, Permutation rows (out ++ rest)
                  /\ forall x y, In x out -> In y rest -> newer_eq x y.

Lemma select_recent_prefix (rows : list A) :
  newest_first_prefix rows (select_recent key rows).
Proof.
  unfold newest_first_prefix, select_recent.
  pose proof (sort_desc_sorted rows) as Hs.
  pose proof (sort_desc_perm rows) as Hp.
  rewrite <- (firstn_skipn 100 (sort_desc key rows)) in Hs, Hp.
  split; [|split].
  - rewrite length_firstn, <- (Permutation_length (sort_desc_perm rows)).
    reflexivity.
  - eapply sorted_app_l; exact Hs.
  - exists (skipn 100 (sort_desc key rows)). split.
    + symmetry. exact Hp.
    + apply sorted_app_cross; exact Hs.
Qed.

End SortDesc.

(** All timestamps of a column have the same text form. *)
Definition uniform_format (ts : list Z) : Prop :=
  forall t u, In t ts -> In u ts -> iso_fraction t = iso_fraction u.

Lemma to_datetime_ok_iff (ts : list Z) : to_datetime_ok ts = true <-> uniform_format ts.
Proof.
  unfold uniform_format. destruct ts as [|t rest]; simpl.
  - split; [intros _ ? ? []|reflexivity].
  - rewrite forallb_forall. split.
    + intros H a b Ha Hb.
      assert (Ht : forall x, t = x \/ In x rest -> iso_fraction x = iso_fraction t).
      { intros x [<-|Hx]; [reflexivity|]. apply Bool.eqb_prop, H, Hx. }
      rewrite (Ht a Ha), (Ht b Hb). reflexivity.
    + intros H u Hu. rewrite (H u t (or_intror Hu) (or_introl eq_refl)).
      apply Bool.eqb_reflx.
Qed.

Lemma select_recent_incl {A} (key : A -> Z) (rows : list A) (x : A) :
  In x (select_recent key rows) -> In x rows.
Proof.
  intros Hx. destruct (select_recent_prefix key rows) as (_ & _ & rest & Hp & _).
  apply (Permutation_in _ (Permutation_sym Hp)), in_or_app. left; exact Hx.
Qed.

Lemma select_recent_uniform {A} (key : A -> Z) (rows : list A) :
  uniform_format (map key rows) ->
  to_datetime_ok (map key (select_recent key rows)) = true.
Proof.
  intros H. apply to_datetime_ok_iff. intros t u Ht Hu.
  apply in_map_iff in Ht as (x & <- & Hx). apply in_map_iff in Hu as (y & <- & Hy).
  apply H; apply in_map; eapply select_recent_incl; eassumption.
Qed.



(** ** Concrete runs *)

(** Brent closes 79 then 80, WTI 75: jet fuel (80 + 75) / 2 * 1.35. *)
Example live_fuel_run :
  option_map (fun d : Dict => d !! "jet_fuel")
    (fst (get_live_fuel_prices unit half_rand (HFrame [79; 80]) (HFrame [75]) 0 tt))
  = Some (Some (VNum (py_round 104.625 6))).
Proof. vm_compute. reflexivity. Qed.

(** Both benchmark frames empty: the fallback draws midpoints. *)
Example fallback_fuel_run :
  option_map (fun d : Dict => d !! "brent_crude")
    (fst (get_live_fuel_prices unit half_rand (HFrame []) (HFrame [75]) 0 tt))
  = Some (Some (VNum (py_round 65 2))).
Proof. vm_compute. reflexivity. Qed.

(** A jet-fuel move of exactly 2% is a moderate hedge, not a high one. *)
Example fuel_signal_boundary :
  fuel_hedging_analysis
    (calculate_price_changes [frow 2.55 65 60 2; frow 2.50 64 59 1]
       [crow 83 97 114 0.56 1]) = MODERATE_HEDGE.
Proof. vm_compute. reflexivity. Qed.

(** * Further properties of the pipeline *)

(** ** Collection cycle end to end *)

(** A fuel dict stamped with [t]. *)
Definition fuel_shape_at (t : Z) (d : Dict) : Prop :=
  exists j b w,
    d = <["jet_fuel" := VNum j]> (<["brent_crude" := VNum b]>
          (<["wti_crude" := VNum w]> (<["timestamp" := VTime t]> (∅ : Dict)))).

(** A currency dict stamped with [t]. *)
Definition currency_shape_at (t : Z) (d : Dict) : Prop :=
  exists u e g y,
    d = <["usd_inr" := VNum u]> (<["eur_inr" := VNum e]> (<["gbp_inr" := VNum g]>
          (<["jpy_inr" := VNum y]> (<["timestamp" := VTime t]> (∅ : Dict))))).

Lemma fuel_shape_at_shape t d : fuel_shape_at t d -> fuel_shape d.
Proof. intros (j & b & w & ->). do 4 eexists. reflexivity. Qed.

Lemma currency_shape_at_shape t d : currency_shape_at t d -> currency_shape d.
Proof. intros (u & e & g & y & ->). do 5 eexists. reflexivity. Qed.

Lemma get_live_fuel_at {RState} (rand : RState -> Q * RState) brent wti now st :
  exists d st', get_live_fuel_prices RState rand brent wti now st = (Some d, st')
                /\ fuel_shape_at now d.
Proof.
  assert (Hfb : exists d st', get_fallback_fuel_prices RState rand now st = (d, st')
                              /\ fuel_shape_at now d).
  { unfold get_fallback_fuel_prices, uniform.
    destruct (rand st) as [r1 s1]. destruct (rand s1) as [r2 s2].
    destruct (rand s2) as [r3 s3].
    do 2 eexists. split; [reflexivity|]. do 3 eexists. reflexivity. }
  destruct Hfb as (d0 & st0 & Efb & Sfb).
  unfold get_live_fuel_prices.
  destruct brent as [|[|b bs]], wti as [|[|w ws]]; rewrite ?Efb; eauto.
  do 2 eexists. split; [reflexivity|]. do 3 eexists. reflexivity.
Qed.

Lemma get_live_currency_at {RState} (rand : RState -> Q * RState)
    a usd eur gbp jpy now st :
  exists d st', get_live_currency_rates RState rand a usd eur gbp jpy now st = (Some d, st')
                /\ currency_shape_at now d.
Proof.
  unfold get_live_currency_rates.
  destruct (source_a a now) as [d|] eqn:Ea.
  { exists d, st. split; [reflexivity|].
    revert Ea. unfold source_a. destruct a as [|status [rates|]]; try discriminate.
    destruct (Z.eqb status 200); [|discriminate].
    destruct (py_div _ (dict_get rates "EUR" 0.85)); [|discriminate]. simpl.
    destruct (py_div _ (dict_get rates "GBP" 0.73)); [|discriminate]. simpl.
    destruct (py_div _ (dict_get rates "JPY" 110.0)); [|discriminate]. simpl.
    intros E. injection E as <-. do 4 eexists. reflexivity. }
  destruct (source_b usd eur gbp jpy now) as [d|] eqn:Eb.
  { exists d, st. split; [reflexivity|]. revert Eb. unfold source_b.
    destruct usd as [|[|u us]], eur, gbp, jpy; try discriminate.
    intros E. injection E as <-. do 4 eexists. reflexivity. }
  unfold get_fallback_currency_rates, uniform.
  destruct (rand st) as [r1 s1]. destruct (rand s1) as [r2 s2].
  destruct (rand s2) as [r3 s3]. destruct (rand s3) as [r4 s4].
  do 2 eexists. split; [reflexivity|]. do 4 eexists. reflexivity.
Qed.

(** The cycle, opened up: both fetches, then the writer, then [True]. *)
Lemma collect_unfold {RState} (rand : RState -> Q * RState) env s st :
  exists f c st1 st2,
    get_live_fuel_prices RState rand (env_brent env) (env_wti env) (env_fuel_now env) st
      = (Some f, st1)
    /\ get_live_currency_rates RState rand (env_rates env) (env_usd env) (env_eur env)
         (env_gbp env) (env_jpy env) (env_currency_now env) st1 = (Some c, st2)
    /\ fuel_shape_at (env_fuel_now env) f /\ currency_shape_at (env_currency_now env) c
    /\ collect_and_store_realtime_data RState rand env s st
       = (true, store_data_in_database s f c, st2).
Proof.
  destruct (get_live_fuel_at rand (env_brent env) (env_wti env) (env_fuel_now env) st)
    as (f & st1 & Ef & Sf).
  destruct (get_live_currency_at rand (env_rates env) (env_usd env) (env_eur env)
              (env_gbp env) (env_jpy env) (env_currency_now env) st1) as (c & st2 & Ec & Sc).
  exists f, c, st1, st2. do 4 (split; [assumption|]).
  pose proof (fuel_shape_at_shape _ _ Sf) as Sf'.
  pose proof (currency_shape_at_shape _ _ Sc) as Sc'.
  unfold collect_and_store_realtime_data. rewrite Ef, Ec.
  rewrite (shapes_truthy f c Sf' Sc'), (shapes_report_ok f c Sf' Sc'). reflexivity.
Qed.

(** The cycle never reports failure: whatever the sources and the store
    do, [collect_and_store_realtime_data] returns [True]. *)
Theorem collect_always_true (RState : Type) (rand : RState -> Q * RState)
    (env : Env) (s : Store) (st : RState) :
  fst (fst (collect_and_store_realtime_data RState rand env s st)) = true.
Proof.
  destruct (collect_unfold rand env s st) as (f & c & st1 & st2 & _ & _ & _ & _ & E).
  rewrite E. reflexivity.
Qed.

(** On a store that accepts writes, one cycle appends exactly one row to
    each table, the fuel row stamped with the fuel fetcher's clock reading
    and the currency row with the currency fetcher's, each holding the
    values of its fetched dict, and returns [True]. *)
Theorem collect_appends_one_row (RState : Type) (rand : RState -> Q * RState)
    (env : Env) (fs : list FuelRow) (cs : list CurrencyRow) (st : RState) :
  exists f c fr cr st2,
    fst (get_live_fuel_prices RState rand (env_brent env) (env_wti env) (env_fuel_now env) st)
      = Some f
    /\ fst (get_live_currency_rates RState rand (env_rates env) (env_usd env)
              (env_eur env) (env_gbp env) (env_jpy env) (env_currency_now env)
              (snd (get_live_fuel_prices RState rand (env_brent env) (env_wti env)
                      (env_fuel_now env) st))) = Some c
    /\ collect_and_store_realtime_data RState rand env (healthy_store fs cs) st
       = (true, healthy_store (fs ++ [fr]) (cs ++ [cr]), st2)
    /\ fr_timestamp fr = env_fuel_now env /\ cr_timestamp cr = env_currency_now env
    /\ f !! "jet_fuel" = Some (VNum (fr_jet_fuel fr))
    /\ f !! "brent_crude" = Some (VNum (fr_brent_crude fr))
    /\ f !! "wti_crude" = Some (VNum (fr_wti_crude fr))
    /\ c !! "usd_inr" = Some (VNum (cr_usd_inr cr))
    /\ c !! "eur_inr" = Some (VNum (cr_eur_inr cr))
    /\ c !! "gbp_inr" = Some (VNum (cr_gbp_inr cr))
    /\ c !! "jpy_inr" = Some (VNum (cr_jpy_inr cr)).
Proof.
  destruct (collect_unfold rand env (healthy_store fs cs) st)
    as (f & c & st1 & st2 & Ef & Ec & Sf & Sc & E).
  destruct Sf as (j & b & w & Hf). destruct Sc as (u & e & g & y & Hc).
  exists f, c, (frow j b w (env_fuel_now env)), (crow u e g y (env_currency_now env)), st2.
  rewrite Ef. simpl. rewrite Ec. split; [reflexivity|]. split; [reflexivity|].
  rewrite E. subst f c. split.
  - unfold store_data_in_database, store_try, time_field, num_field.
    simplify_map_eq. reflexivity.
  - simpl. repeat split; by simplify_map_eq.
Qed.

(** ** Writing then reading *)

Lemma select_recent_head {A} (key : A -> Z) (rows : list A) (x : A) :
  (forall y, In y rows -> (key y < key x)%Z) ->
  exists t, select_recent key (rows ++ [x]) = x :: t.
Proof.
  intros Hlt.
  pose proof (select_recent_prefix key (rows ++ [x])) as Hpre.
  destruct (select_recent key (rows ++ [x])) as [|h t].
  { destruct Hpre as (Hlen & _). simpl in Hlen.
    rewrite length_app, Nat.add_comm in Hlen. simpl in Hlen. discriminate. }
  destruct Hpre as (Hlen & Hs & rest & Hp & Hx).
  exists t. f_equal.
  assert (Hh : In h (rows ++ [x])).
  { apply (Permutation_in _ (Permutation_sym Hp)). left; reflexivity. }
  assert (Hxh : newer_eq key h x).
  { assert (Hin : In x ((h :: t) ++ rest)).
    { apply (Permutation_in _ Hp). apply in_or_app. right; left; reflexivity. }
    apply in_app_or in Hin as [[<-|Hin]|Hin].
    - unfold newer_eq. lia.
    - apply StronglySorted_inv in Hs as [_ Hf].
      rewrite List.Forall_forall in Hf. apply Hf, Hin.
    - apply Hx; [left; reflexivity | exact Hin]. }
  apply in_app_or in Hh as [Hh|[<-|[]]]; [|reflexivity].
  specialize (Hlt h Hh). unfold newer_eq in Hxh. lia.
Qed.

Lemma uniform_snoc {A} (key : A -> Z) (l : list A) (x : A) :
  (forall r, In r l -> iso_fraction (key r) = iso_fraction (key x)) ->
  uniform_format (map key (l ++ [x])).
Proof.
  intros H t u Ht Hu.
  assert (Hk : forall v, In v (map key (l ++ [x])) -> iso_fraction v = iso_fraction (key x)).
  { intros v Hv. apply in_map_iff in Hv as (r & <- & Hr).
    apply in_app_or in Hr as [Hr|[<-|[]]]; [apply H, Hr|reflexivity]. }
  rewrite (Hk t Ht), (Hk u Hu). reflexivity.
Qed.

(** After a cycle on a store that accepts writes, when each fetcher's
    clock reading is later than every timestamp of its table and has the
    same text form (whole-second or fractional) as them, [load_data]
    returns the rows the cycle just wrote at the head of both frames. *)
Theorem collect_then_load_latest (RState : Type) (rand : RState -> Q * RState)
    (env : Env) (fs : list FuelRow) (cs : list CurrencyRow) (st : RState) :
  (forall r, In r fs -> (fr_timestamp r < env_fuel_now env)%Z) ->
  (forall r, In r cs -> (cr_timestamp r < env_currency_now env)%Z) ->
  (forall r, In r fs -> iso_fraction (fr_timestamp r) = iso_fraction (env_fuel_now env)) ->
  (forall r, In r cs -> iso_fraction (cr_timestamp r) = iso_fraction (env_currency_now env)) ->
  exists f c fr ft cr ct,
    fst (get_live_fuel_prices RState rand (env_brent env) (env_wti env) (env_fuel_now env) st)
      = Some f
    /\ fst (get_live_currency_rates RState rand (env_rates env) (env_usd env)
              (env_eur env) (env_gbp env) (env_jpy env) (env_currency_now env)
              (snd (get_live_fuel_prices RState rand (env_brent env) (env_wti env)
                      (env_fuel_now env) st))) = Some c
    /\ load_data (snd (fst (collect_and_store_realtime_data RState rand env
                              (healthy_store fs cs) st)))
       = (Some (fr :: ft), Some (cr :: ct))
    /\ fr_timestamp fr = env_fuel_now env /\ cr_timestamp cr = env_currency_now env
    /\ f !! "jet_fuel" = Some (VNum (fr_jet_fuel fr))
    /\ f !! "brent_crude" = Some (VNum (fr_brent_crude fr))
    /\ f !! "wti_crude" = Some (VNum (fr_wti_crude fr))
    /\ c !! "usd_inr" = Some (VNum (cr_usd_inr cr))
    /\ c !! "eur_inr" = Some (VNum (cr_eur_inr cr))
    /\ c !! "gbp_inr" = Some (VNum (cr_gbp_inr cr))
    /\ c !! "jpy_inr" = Some (VNum (cr_jpy_inr cr)).
Proof.
  intros Hfs Hcs Hff Hcf.
  destruct (collect_unfold rand env (healthy_store fs cs) st)
    as (f & c & st1 & st2 & Ef & Ec & Sf & Sc & E).
  destruct Sf as (j & b & w & Hf). destruct Sc as (u & e & g & y & Hc).
  set (fr := frow j b w (env_fuel_now env)). set (cr := crow u e g y (env_currency_now env)).
  pose proof (select_recent_uniform fr_timestamp (fs ++ [fr])
                (uniform_snoc fr_timestamp fs fr Hff)) as Uf.
  pose proof (select_recent_uniform cr_timestamp (cs ++ [cr])
                (uniform_snoc cr_timestamp cs cr Hcf)) as Uc.
  destruct (select_recent_head fr_timestamp fs fr Hfs) as [ft Eft].
  destruct (select_recent_head cr_timestamp cs cr Hcs) as [ct Ect].
  rewrite Eft in Uf. rewrite Ect in Uc.
  exists f, c, fr, ft, cr, ct.
  rewrite Ef. simpl. rewrite Ec. split; [reflexivity|]. split; [reflexivity|].
  rewrite E. subst f c. split.
  - unfold store_data_in_database, store_try, time_field, num_field.
    simplify_map_eq. unfold load_data. cbn -[select_recent to_datetime_ok].
    unfold fr, cr, frow, crow in Eft, Ect, Uf, Uc. rewrite Eft, Ect.
    cbn -[iso_fraction] in Uf, Uc |- *. rewrite Uf, Uc. reflexivity.
  - subst fr cr. simpl. repeat split; by simplify_map_eq.
Qed.

Lemma collect_then_load_latest_witness :
  exists f c fr ft cr ct,
    fst (get_live_fuel_prices unit half_rand (env_brent live_env) (env_wti live_env)
           (env_fuel_now live_env) tt) = Some f
    /\ fst (get_live_currency_rates unit half_rand (env_rates live_env) (env_usd live_env)
              (env_eur live_env) (env_gbp live_env) (env_jpy live_env) (env_currency_now live_env)
              (snd (get_live_fuel_prices unit half_rand (env_brent live_env)
                      (env_wti live_env) (env_fuel_now live_env) tt))) = Some c
    /\ load_data (snd (fst (collect_and_store_realtime_data unit half_rand live_env
                              (healthy_store [frow 2.5 64 59 900] [crow 83 97 114 0.56 900])
                              tt)))
       = (Some (fr :: ft), Some (cr :: ct))
    /\ fr_timestamp fr = env_fuel_now live_env /\ cr_timestamp cr = env_currency_now live_env
    /\ f !! "jet_fuel" = Some (VNum (fr_jet_fuel fr))
    /\ f !! "brent_crude" = Some (VNum (fr_brent_crude fr))
    /\ f !! "wti_crude" = Some (VNum (fr_wti_crude fr))
    /\ c !! "usd_inr" = Some (VNum (cr_usd_inr cr))
    /\ c !! "eur_inr" = Some (VNum (cr_eur_inr cr))
    /\ c !! "gbp_inr" = Some (VNum (cr_gbp_inr cr))
    /\ c !! "jpy_inr" = Some (VNum (cr_jpy_inr cr)).
Proof.
  apply (collect_then_load_latest unit half_rand live_env
           [frow 2.5 64 59 900] [crow 83 97 114 0.56 900] tt);
    intros r [<-|[]]; vm_compute; reflexivity.
Defined.

(** ** Everything down: the fallback rows reach the store *)

Section AllDown.

Variable RState : Type.
Variable rand : RState -> Q * RState.
Hypothesis rand_range : forall st, 0 <= fst (rand st) /\ fst (rand st) < 1.

Ltac draw_in st :=
  let r := fresh "r" in let st' := fresh "st" in let E := fresh "E" in
  let H := fresh "H" in
  destruct (rand st) as [r st'] eqn:E;
  pose proof (rand_range st) as H; rewrite E in H; simpl in H.

Ltac bound_field A B n :=
  apply (uniform_round_between _ _ _ n A B);
  [ lia | tauto | tauto | qle_eval | reflexivity | reflexivity ].

Lemma fallback_fuel_fields (now : Z) (st : RState) :
  exists j b w st',
    get_fallback_fuel_prices RState rand now st =
      (<["jet_fuel" := VNum j]> (<["brent_crude" := VNum b]>
        (<["wti_crude" := VNum w]> (<["timestamp" := VTime now]> (∅ : Dict)))), st')
    /\ (2.3 <= j /\ j <= 2.6) /\ (60 <= b /\ b <= 70) /\ (55 <= w /\ w <= 65).
Proof.
  unfold get_fallback_fuel_prices, uniform.
  draw_in st. draw_in st0. draw_in st1.
  do 4 eexists. split; [reflexivity|].
  split; [|split]; [bound_field 2300000%Z 2600000%Z 6%Z
                   | bound_field 6000%Z 7000%Z 2%Z
                   | bound_field 5500%Z 6500%Z 2%Z].
Qed.

Lemma fallback_currency_fields (now : Z) (st : RState) :
  exists u e g y st',
    get_fallback_currency_rates RState rand now st =
      (<["usd_inr" := VNum u]> (<["eur_inr" := VNum e]> (<["gbp_inr" := VNum g]>
        (<["jpy_inr" := VNum y]> (<["timestamp" := VTime now]> (∅ : Dict))))), st')
    /\ (88 <= u /\ u <= 90) /\ (102 <= e /\ e <= 105) /\ (117 <= g /\ g <= 120)
    /\ (0.57 <= y /\ y <= 0.58).
Proof.
  unfold get_fallback_currency_rates, uniform.
  draw_in st. draw_in st0. draw_in st1. draw_in st2.
  do 5 eexists. split; [reflexivity|].
  split; [|split; [|split]]; [bound_field 8800%Z 9000%Z 2%Z
                             | bound_field 10200%Z 10500%Z 2%Z
                             | bound_field 11700%Z 12000%Z 2%Z
                             | bound_field 570000%Z 580000%Z 6%Z].
Qed.

(** When no live source answers (a benchmark history raises or is empty,
    source A yields nothing, and the USD/INR quote is empty or a pair
    raises), a cycle on a writable store still returns [True] and appends
    one fuel row and one currency row, each field within the fallback
    interval. *)
Theorem all_down_cycle_stores_fallback (env : Env) (fs : list FuelRow)
    (cs : list CurrencyRow) (st : RState) :
  (env_brent env = HRaise \/ env_brent env = HFrame []
   \/ env_wti env = HRaise \/ env_wti env = HFrame []) ->
  source_a (env_rates env) (env_currency_now env) = None ->
  (env_usd env = HFrame [] \/ env_usd env = HRaise \/ env_eur env = HRaise
   \/ env_gbp env = HRaise \/ env_jpy env = HRaise) ->
  exists fr cr st',
    collect_and_store_realtime_data RState rand env (healthy_store fs cs) st
      = (true, healthy_store (fs ++ [fr]) (cs ++ [cr]), st')
    /\ fr_timestamp fr = env_fuel_now env /\ cr_timestamp cr = env_currency_now env
    /\ (2.3 <= fr_jet_fuel fr /\ fr_jet_fuel fr <= 2.6)
    /\ (60 <= fr_brent_crude fr /\ fr_brent_crude fr <= 70)
    /\ (55 <= fr_wti_crude fr /\ fr_wti_crude fr <= 65)
    /\ (88 <= cr_usd_inr cr /\ cr_usd_inr cr <= 90)
    /\ (102 <= cr_eur_inr cr /\ cr_eur_inr cr <= 105)
    /\ (117 <= cr_gbp_inr cr /\ cr_gbp_inr cr <= 120)
    /\ (0.57 <= cr_jpy_inr cr /\ cr_jpy_inr cr <= 0.58).
Proof.
  intros Hfuel Ha Hb.
  destruct (fallback_fuel_fields (env_fuel_now env) st) as (j & b & w & st1 & Ef & Bj & Bb & Bw).
  destruct (fallback_currency_fields (env_currency_now env) st1)
    as (u & e & g & y & st2 & Ec & Bu & Be & Bg & By).
  assert (Hlf : get_live_fuel_prices RState rand (env_brent env) (env_wti env)
                  (env_fuel_now env) st = (Some (fst (get_fallback_fuel_prices RState rand
                  (env_fuel_now env) st)), st1)).
  { unfold get_live_fuel_prices. rewrite Ef.
    destruct Hfuel as [->|[->|[->| ->]]]; simpl; try reflexivity;
      destruct (env_brent env) as [|[|? ?]]; reflexivity. }
  assert (Hsb : source_b (env_usd env) (env_eur env) (env_gbp env) (env_jpy env)
                  (env_currency_now env) = None).
  { unfold source_b. destruct Hb as [->|[->|[->|[->| ->]]]];
      repeat match goal with |- context [match ?h with HRaise => _ | HFrame _ => _ end] =>
               destruct h end; reflexivity. }
  assert (Hlc : get_live_currency_rates RState rand (env_rates env) (env_usd env)
                  (env_eur env) (env_gbp env) (env_jpy env) (env_currency_now env) st1
                = (Some (fst (get_fallback_currency_rates RState rand (env_currency_now env) st1)), st2)).
  { unfold get_live_currency_rates. rewrite Ha, Hsb, Ec. reflexivity. }
  rewrite Ef in Hlf. rewrite Ec in Hlc. simpl in Hlf, Hlc.
  exists (frow j b w (env_fuel_now env)), (crow u e g y (env_currency_now env)), st2.
  split; [|simpl; repeat split; assumption || reflexivity || tauto].
  unfold collect_and_store_realtime_data. rewrite Hlf, Hlc.
  unfold truthy, report_ok, store_data_in_database, store_try, time_field, num_field.
  rewrite !bool_decide_eq_true_2 by apply insert_non_empty.
  simplify_map_eq. reflexivity.
Qed.

End AllDown.

Lemma all_down_cycle_stores_fallback_witness :
  exists fr cr st',
    collect_and_store_realtime_data unit half_rand
      {| env_brent := HRaise; env_wti := HRaise; env_rates := ARaise;
         env_usd := HRaise; env_eur := HRaise; env_gbp := HRaise; env_jpy := HRaise;
         env_fuel_now := 0; env_currency_now := 5 |} (healthy_store [] []) tt
      = (true, healthy_store ([] ++ [fr]) ([] ++ [cr]), st')
    /\ fr_timestamp fr = 0%Z /\ cr_timestamp cr = 5%Z
    /\ (2.3 <= fr_jet_fuel fr /\ fr_jet_fuel fr <= 2.6)
    /\ (60 <= fr_brent_crude fr /\ fr_brent_crude fr <= 70)
    /\ (55 <= fr_wti_crude fr /\ fr_wti_crude fr <= 65)
    /\ (88 <= cr_usd_inr cr /\ cr_usd_inr cr <= 90)
    /\ (102 <= cr_eur_inr cr /\ cr_eur_inr cr <= 105)
    /\ (117 <= cr_gbp_inr cr /\ cr_gbp_inr cr <= 120)
    /\ (0.57 <= cr_jpy_inr cr /\ cr_jpy_inr cr <= 0.58).
Proof.
  apply (all_down_cycle_stores_fallback unit half_rand half_rand_range
           {| env_brent := HRaise; env_wti := HRaise; env_rates := ARaise;
              env_usd := HRaise; env_eur := HRaise; env_gbp := HRaise;
              env_jpy := HRaise; env_fuel_now := 0; env_currency_now := 5 |} [] [] tt);
    simpl; auto.
Defined.

(** ** Dashboard *)

Lemma select_recent_nil {A} (key : A -> Z) (rows : list A) :
  select_recent key rows = [] <-> rows = [].
Proof.
  split; [|intros ->; reflexivity].
  intros E. destruct rows as [|r rs]; [reflexivity|].
  destruct (select_recent_prefix key (r :: rs)) as (Hlen & _).
  rewrite E in Hlen. simpl in Hlen. discriminate.
Qed.

(** [main] stops with the load error exactly when the database cannot be
    opened, a table is missing or the timestamps of a loaded frame mix
    the two text forms, and with the no-data warning exactly when both
    frames load and one of them is empty. *)
Theorem dashboard_outcomes (s : Store) (now : Z) :
  (dashboard s now = LoadError
     <-> db_reachable s = false \/ db_fuel s = None \/ db_currency s = None
         \/ exists fs cs, db_fuel s = Some fs /\ db_currency s = Some cs
              /\ (to_datetime_ok (map fr_timestamp (select_recent fr_timestamp fs)) = false
                  \/ to_datetime_ok (map cr_timestamp (select_recent cr_timestamp cs)) = false))
  /\ (dashboard s now = NoData
     <-> db_reachable s = true
         /\ exists fs cs, db_fuel s = Some fs /\ db_currency s = Some cs
              /\ to_datetime_ok (map fr_timestamp (select_recent fr_timestamp fs)) = true
              /\ to_datetime_ok (map cr_timestamp (select_recent cr_timestamp cs)) = true
              /\ (fs = [] \/ cs = [])).
Proof.
  unfold dashboard, load_data; cbv zeta.
  destruct (db_reachable s), (db_fuel s) as [fs|], (db_currency s) as [cs|].
  2-8: repeat match goal with |- context [if ?b then _ else _] => destruct b end;
    naive_solver.
  destruct (to_datetime_ok (map fr_timestamp (select_recent fr_timestamp fs))) eqn:E1;
    [|split; [split; [intros _; right; right; right; exists fs, cs; auto|reflexivity]|];
      split; [discriminate|]; intros (_ & fs' & cs' & Hf & Hc & H & _);
      injection Hf as <-; congruence].
  destruct (to_datetime_ok (map cr_timestamp (select_recent cr_timestamp cs))) eqn:E2;
    [|split; [split; [intros _; right; right; right; exists fs, cs; auto|reflexivity]|];
      split; [discriminate|]; intros (_ & fs' & cs' & Hf & Hc & _ & H & _);
      injection Hc as <-; congruence].
  destruct (select_recent fr_timestamp fs) as [|f1 fr] eqn:Ef,
           (select_recent cr_timestamp cs) as [|c1 cr] eqn:Ec.
  all: split; [split; [discriminate|]|].
  all: try (intros [?|[?|[?|(fs' & cs' & Hf & Hc & [H|H])]]];
            [discriminate|discriminate|discriminate| |];
            injection Hf as <-; injection Hc as <-; congruence).
  - split; [intros _|reflexivity]. split; [reflexivity|]. exists fs, cs.
    rewrite Ef, Ec. apply select_recent_nil in Ef.
    split; [reflexivity|]. split; [reflexivity|]. split; [exact E1|]. split; [exact E2|]. auto.
  - split; [intros _|reflexivity]. split; [reflexivity|]. exists fs, cs.
    rewrite Ef, Ec. apply select_recent_nil in Ef.
    split; [reflexivity|]. split; [reflexivity|]. split; [exact E1|]. split; [exact E2|]. auto.
  - split; [intros _|reflexivity]. split; [reflexivity|]. exists fs, cs.
    rewrite Ef, Ec. apply select_recent_nil in Ec.
    split; [reflexivity|]. split; [reflexivity|]. split; [exact E1|]. split; [exact E2|]. auto.
  - split; [discriminate|].
    intros (_ & fs' & cs' & Hf & Hc & _ & _ & [Hn|Hn]); injection Hf as <-;
      injection Hc as <-; subst; discriminate.
Qed.

Lemma dashboard_single_rows (f : FuelRow) (c : CurrencyRow) (now : Z) :
  dashboard (healthy_store [f] [c]) now
  = Analysis (Fin 0) (Fin 0) (Fin 0) (Fin 0)
      (fr_jet_fuel f) (cr_usd_inr c) (fr_brent_crude f) (cr_eur_inr c)
      (freshness now (Z.max (fr_timestamp f) (cr_timestamp c))) MONITOR STABLE.
Proof. reflexivity. Qed.

(** The dashboard after the first cycle on empty tables: the four deltas
    fall back to 0 (one record per table gives no change), so the
    recommendations are MONITOR and STABLE whatever the market did; the
    latest values are the fetched ones and the freshness banner is
    measured from the later of the two clock readings of the cycle. *)
Theorem first_cycle_dashboard (RState : Type) (rand : RState -> Q * RState)
    (env : Env) (st : RState) (now : Z) :
  exists s' st2 f c j b w u e g y,
    collect_and_store_realtime_data RState rand env (healthy_store [] []) st
      = (true, s', st2)
    /\ fst (get_live_fuel_prices RState rand (env_brent env) (env_wti env) (env_fuel_now env) st)
       = Some f
    /\ fst (get_live_currency_rates RState rand (env_rates env) (env_usd env)
              (env_eur env) (env_gbp env) (env_jpy env) (env_currency_now env)
              (snd (get_live_fuel_prices RState rand (env_brent env) (env_wti env)
                      (env_fuel_now env) st))) = Some c
    /\ f = <["timestamp" := VTime (env_fuel_now env)]> (<["wti_crude" := VNum w]>
             (<["brent_crude" := VNum b]> (<["jet_fuel" := VNum j]> ∅)))
    /\ c = <["timestamp" := VTime (env_currency_now env)]> (<["jpy_inr" := VNum y]>
             (<["gbp_inr" := VNum g]> (<["eur_inr" := VNum e]> (<["usd_inr" := VNum u]> ∅))))
    /\ dashboard s' now
       = Analysis (Fin 0) (Fin 0) (Fin 0) (Fin 0) j u b e
           (freshness now (Z.max (env_fuel_now env) (env_currency_now env)))
           MONITOR STABLE.
Proof.
  destruct (collect_unfold rand env (healthy_store [] []) st)
    as (f & c & st1 & st2 & Ef & Ec & Sf & Sc & E).
  destruct Sf as (j & b & w & Hf). destruct Sc as (u & e & g & y & Hc).
  exists (healthy_store [frow j b w (env_fuel_now env)] [crow u e g y (env_currency_now env)]),
    st2, f, c, j, b, w, u, e, g, y.
  rewrite Ef. simpl. rewrite Ec. split; [|split; [reflexivity|split; [reflexivity|]]].
  - rewrite E. subst f c. unfold store_data_in_database, store_try, time_field, num_field.
    simplify_map_eq. reflexivity.
  - subst f c. split; [reflexivity|]. split; [reflexivity|].
    rewrite dashboard_single_rows. reflexivity.
Qed.

(** A zero previous price does not stop the recommendations: the change
    becomes an infinity (or NaN). With two fuel rows and a non-empty
    currency frame, a zero previous jet fuel price makes the fuel
    recommendation follow the sign of the latest price (HIGH_HEDGE above
    zero, LOW_HEDGE below, MONITOR at zero). With two currency rows and a
    non-empty fuel frame, a zero previous USD/INR makes the currency
    recommendation HIGH_VOLATILITY unless the latest USD/INR is zero too. *)
Theorem zero_previous_signals :
  (forall (lf pf : FuelRow) (fs : list FuelRow) (c : CurrencyRow) (cs : list CurrencyRow),
     fr_jet_fuel pf == 0 ->
     fuel_hedging_analysis (calculate_price_changes (lf :: pf :: fs) (c :: cs))
     = match Qcompare (fr_jet_fuel lf) 0 with
       | Gt => HIGH_HEDGE | Lt => LOW_HEDGE | Eq => MONITOR end)
  /\ (forall (f : FuelRow) (fs : list FuelRow) (lc pc : CurrencyRow) (cs : list CurrencyRow),
     cr_usd_inr pc == 0 ->
     currency_hedging_analysis (calculate_price_changes (f :: fs) (lc :: pc :: cs))
     = if Qeq_bool (cr_usd_inr lc) 0 then STABLE else HIGH_VOLATILITY).
Proof.
  split.
  - intros lf pf fs c cs Hj.
    assert (Ej : pct_change (fr_jet_fuel lf) (fr_jet_fuel pf)
                 = match fr_jet_fuel lf ?= 0 with Gt => PosInf | Lt => NegInf | Eq => NaN end).
    { unfold pct_change. rewrite (proj2 (Qeq_bool_iff _ _) Hj).
      assert (H : fr_jet_fuel lf - fr_jet_fuel pf == fr_jet_fuel lf) by (rewrite Hj; ring).
      rewrite (Qcompare_comp _ _ H 0 0 (Qeq_refl 0)). reflexivity. }
    unfold fuel_hedging_analysis, changes_get, calculate_price_changes,
      currency_changes, fuel_changes.
    destruct cs as [|c2 cs]; simplify_map_eq; rewrite Ej;
      destruct (fr_jet_fuel lf ?= 0); reflexivity.
  - intros f fs lc pc cs Hu.
    assert (Eu : pct_change (cr_usd_inr lc) (cr_usd_inr pc)
                 = match cr_usd_inr lc ?= 0 with Gt => PosInf | Lt => NegInf | Eq => NaN end).
    { unfold pct_change. rewrite (proj2 (Qeq_bool_iff _ _) Hu).
      assert (H : cr_usd_inr lc - cr_usd_inr pc == cr_usd_inr lc) by (rewrite Hu; ring).
      rewrite (Qcompare_comp _ _ H 0 0 (Qeq_refl 0)). reflexivity. }
    assert (Es : currency_signal
                   (match cr_usd_inr lc ?= 0 with Gt => PosInf | Lt => NegInf | Eq => NaN end)
                 = if Qeq_bool (cr_usd_inr lc) 0 then STABLE else HIGH_VOLATILITY).
    { destruct (Qeq_bool (cr_usd_inr lc) 0) eqn:E.
      - apply Qeq_bool_iff in E. rewrite E. reflexivity.
      - assert (~ cr_usd_inr lc == 0) as Hn
          by (intros H; apply Qeq_bool_iff in H; congruence).
        destruct (cr_usd_inr lc ?= 0) eqn:C; [| reflexivity | reflexivity].
        apply Qeq_alt in C. contradiction. }
    unfold currency_hedging_analysis, changes_get, calculate_price_changes,
      currency_changes, fuel_changes.
    destruct fs as [|f2 fs]; simplify_map_eq; rewrite Eu; exact Es.
Qed.

Lemma zero_previous_signals_witness :
  (fr_jet_fuel (frow 0 64 59 900) == 0 /\ cr_usd_inr (crow 0 97 114 0.56 900) == 0)
  /\ fuel_hedging_analysis
       (calculate_price_changes [frow 2.5 65 60 1000; frow 0 64 59 900]
          [crow 83 98 115 0.57 1000]) = HIGH_HEDGE
  /\ currency_hedging_analysis
       (calculate_price_changes [frow 2.5 65 60 1000]
          [crow 83 98 115 0.57 1000; crow 0 97 114 0.56 900]) = HIGH_VOLATILITY.
Proof.
  split; [split; reflexivity|]. split.
  - exact (proj1 zero_previous_signals (frow 2.5 65 60 1000) (frow 0 64 59 900) []
             (crow 83 98 115 0.57 1000) []
             (eq_refl : fr_jet_fuel (frow 0 64 59 900) == 0)).
  - exact (proj2 zero_previous_signals (frow 2.5 65 60 1000) []
             (crow 83 98 115 0.57 1000) (crow 0 97 114 0.56 900) []
             (eq_refl : cr_usd_inr (crow 0 97 114 0.56 900) == 0)).
Defined.

Section FrameMax.
Context {A : Type} (key : A -> Z).

Lemma fold_max_ge (rs : list A) (m : Z) :
  (m <= fold_left (fun m x => Z.max m (key x)) rs m)%Z
  /\ forall y, In y rs -> (key y <= fold_left (fun m x => Z.max m (key x)) rs m)%Z.
Proof.
  revert m. induction rs as [|x rs IH]; intros m; simpl; [split; [lia|tauto]|].
  destruct (IH (Z.max m (key x))) as [H1 H2]. split; [lia|].
  intros y [<-|Hy]; [lia|]. apply H2, Hy.
Qed.

Lemma fold_max_attained (rs : list A) (m : Z) :
  fold_left (fun m x => Z.max m (key x)) rs m = m
  \/ exists y, In y rs /\ fold_left (fun m x => Z.max m (key x)) rs m = key y.
Proof.
  revert m. induction rs as [|x rs IH]; intros m; simpl; [left; reflexivity|].
  destruct (IH (Z.max m (key x))) as [E|(y & Hy & E)].
  - rewrite E. destruct (Z.max_spec m (key x)) as [[_ ->]|[_ ->]];
      [right; exists x; auto|left; reflexivity].
  - right. exists y. auto.
Qed.

(** [frame_max] is the largest key of the frame. *)
Lemma frame_max_spec (r : A) (rs : list A) :
  (forall y, In y (r :: rs) -> (key y <= frame_max key r rs)%Z)
  /\ exists y, In y (r :: rs) /\ frame_max key r rs = key y.
Proof.
  unfold frame_max. destruct (fold_max_ge rs (key r)) as [H1 H2]. split.
  - intros y [<-|Hy]; [exact H1|apply H2, Hy].
  - destruct (fold_max_attained rs (key r)) as [E|(y & Hy & E)];
      [exists r; split; [left|]; auto|exists y; split; [right|]; auto].
Qed.

(** The newest row of the loaded frame has the largest key of the whole
    table, and the maximum over the loaded frame is that key. *)
Lemma select_recent_max (r0 : A) (rows : list A) :
  exists h t, select_recent key (r0 :: rows) = h :: t
    /\ In h (r0 :: rows)
    /\ (forall y, In y (r0 :: rows) -> (key y <= key h)%Z)
    /\ frame_max key h t = key h
    /\ frame_max key r0 rows = key h.
Proof.
  pose proof (select_recent_prefix key (r0 :: rows)) as (Hlen & Hs & rest & Hp & Hx).
  destruct (select_recent key (r0 :: rows)) as [|h t]; [discriminate|].
  assert (Hh : In h (r0 :: rows)).
  { apply (Permutation_in _ (Permutation_sym Hp)). left; reflexivity. }
  assert (Hall : forall y, In y (r0 :: rows) -> (key y <= key h)%Z).
  { intros y Hy. apply (Permutation_in _ Hp) in Hy.
    apply in_app_or in Hy as [[<-|Hy]|Hy]; [lia| |].
    - apply StronglySorted_inv in Hs as [_ Hf].
      rewrite List.Forall_forall in Hf. apply (Hf y Hy).
    - apply (Hx h y); [left; reflexivity|exact Hy]. }
  exists h, t. split; [reflexivity|]. split; [exact Hh|]. split; [exact Hall|].
  split.
  - destruct (frame_max_spec h t) as [Hb (y & Hy & E)]. rewrite E.
    assert (key y <= key h)%Z.
    { destruct Hy as [<-|Hy]; [lia|].
      apply StronglySorted_inv in Hs as [_ Hf].
      rewrite List.Forall_forall in Hf. apply (Hf y Hy). }
    specialize (Hb h (or_introl eq_refl)). lia.
  - destruct (frame_max_spec r0 rows) as [Hb (y & Hy & E)].
    specialize (Hb h Hh). specialize (Hall y Hy). lia.
Qed.

End FrameMax.

(** On two non-empty tables whose timestamps each have one text form
    (so that the frames load), the dashboard shows the values of a newest
    row of each table, and its freshness banner is measured from the
    newest timestamp of both whole tables (the 100-row limit of the query
    never hides it). *)
Theorem dashboard_latest_and_freshness (s : Store) (now : Z)
    (f0 : FuelRow) (fs : list FuelRow) (c0 : CurrencyRow) (cs : list CurrencyRow) :
  db_reachable s = true -> db_fuel s = Some (f0 :: fs) -> db_currency s = Some (c0 :: cs) ->
  uniform_format (map fr_timestamp (f0 :: fs)) -> uniform_format (map cr_timestamp (c0 :: cs)) ->
  exists f1 c1,
    In f1 (f0 :: fs) /\ (forall f, In f (f0 :: fs) -> (fr_timestamp f <= fr_timestamp f1)%Z)
    /\ In c1 (c0 :: cs) /\ (forall c, In c (c0 :: cs) -> (cr_timestamp c <= cr_timestamp c1)%Z)
    /\ exists jd ud bd ed fsig csig,
         dashboard s now
         = Analysis jd ud bd ed (fr_jet_fuel f1) (cr_usd_inr c1)
             (fr_brent_crude f1) (cr_eur_inr c1)
             (freshness now (Z.max (frame_max fr_timestamp f0 fs)
                                   (frame_max cr_timestamp c0 cs)))
             fsig csig.
Proof.
  intros Hr Hf Hc Uf Uc.
  apply select_recent_uniform in Uf, Uc.
  destruct (select_recent_max fr_timestamp f0 fs) as (f1 & ft & Ef & Hf1 & Hfa & Hft & Hfm).
  destruct (select_recent_max cr_timestamp c0 cs) as (c1 & ct & Ec & Hc1 & Hca & Hct & Hcm).
  exists f1, c1. do 4 (split; [assumption|]).
  unfold dashboard, load_data; cbv zeta. rewrite Hr, Hf, Hc, Uf, Uc, Ef, Ec. cbn [fst snd].
  rewrite Hft, Hct, Hfm, Hcm. do 6 eexists. reflexivity.
Qed.

Lemma dashboard_latest_and_freshness_witness :
  (db_reachable (healthy_store [frow 2.5 64 59 900; frow 2.55 65 60 1000]
                  [crow 83 97 114 0.56 1000]) = true
   /\ db_fuel (healthy_store [frow 2.5 64 59 900; frow 2.55 65 60 1000]
                 [crow 83 97 114 0.56 1000]) = Some [frow 2.5 64 59 900; frow 2.55 65 60 1000]
   /\ db_currency (healthy_store [frow 2.5 64 59 900; frow 2.55 65 60 1000]
                     [crow 83 97 114 0.56 1000]) = Some [crow 83 97 114 0.56 1000]
   /\ uniform_format (map fr_timestamp [frow 2.5 64 59 900; frow 2.55 65 60 1000])
   /\ uniform_format (map cr_timestamp [crow 83 97 114 0.56 1000]))
  /\ exists f1 c1,
    In f1 [frow 2.5 64 59 900; frow 2.55 65 60 1000]
    /\ (forall f, In f [frow 2.5 64 59 900; frow 2.55 65 60 1000] ->
                  (fr_timestamp f <= fr_timestamp f1)%Z)
    /\ In c1 [crow 83 97 114 0.56 1000]
    /\ (forall c, In c [crow 83 97 114 0.56 1000] -> (cr_timestamp c <= cr_timestamp c1)%Z)
    /\ exists jd ud bd ed fsig csig,
         dashboard (healthy_store [frow 2.5 64 59 900; frow 2.55 65 60 1000]
                      [crow 83 97 114 0.56 1000]) 1100
         = Analysis jd ud bd ed (fr_jet_fuel f1) (cr_usd_inr c1)
             (fr_brent_crude f1) (cr_eur_inr c1)
             (freshness 1100 (Z.max (frame_max fr_timestamp (frow 2.5 64 59 900)
                                       [frow 2.55 65 60 1000])
                                    (frame_max cr_timestamp (crow 83 97 114 0.56 1000) [])))
             fsig csig.
Proof.
  assert (Uf : uniform_format (map fr_timestamp [frow 2.5 64 59 900; frow 2.55 65 60 1000]))
    by (apply to_datetime_ok_iff; vm_compute; reflexivity).
  assert (Uc : uniform_format (map cr_timestamp [crow 83 97 114 0.56 1000]))
    by (apply to_datetime_ok_iff; vm_compute; reflexivity).
  split; [split; [reflexivity|split; [reflexivity|split; [reflexivity|split; assumption]]]|].
  apply (dashboard_latest_and_freshness
           (healthy_store [frow 2.5 64 59 900; frow 2.55 65 60 1000]
              [crow 83 97 114 0.56 1000]) 1100
           (frow 2.5 64 59 900) [frow 2.55 65 60 1000] (crow 83 97 114 0.56 1000) []);
    first [reflexivity | assumption].
Defined.

Section TimeOrder.
Context {A : Type} (key : A -> Z).

Definition older (x y : A) : Prop := (key x < key y)%Z.

Lemma insert_desc_oldest (x : A) (l : list A) :
  (forall y, In y l -> (key x < key y)%Z) -> insert_desc key x l = l ++ [x].
Proof.
  induction l as [|y l IH]; intros Hl; simpl; [reflexivity|].
  assert (Hy : (key x < key y)%Z) by (apply Hl; left; reflexivity).
  replace (Z.leb (key y) (key x)) with false by (symmetry; apply Z.leb_gt; exact Hy).
  f_equal. apply IH. intros z Hz. apply Hl. right; exact Hz.
Qed.

Lemma sort_desc_increasing (l : list A) :
  StronglySorted older l -> sort_desc key l = rev l.
Proof.
  induction l as [|x l IH]; intros Hs; simpl; [reflexivity|].
  apply StronglySorted_inv in Hs as [Hs Hx].
  rewrite IH by exact Hs. apply insert_desc_oldest.
  intros y Hy. apply in_rev in Hy. rewrite List.Forall_forall in Hx. apply Hx, Hy.
Qed.

Lemma sorted_older_snoc (l : list A) (x : A) :
  StronglySorted older l -> (forall y, In y l -> (key y < key x)%Z) ->
  StronglySorted older (l ++ [x]).
Proof.
  induction l as [|y l IH]; intros Hs Hl; simpl.
  - constructor; constructor.
  - apply StronglySorted_inv in Hs as [Hs Hy]. constructor.
    + apply IH; [exact Hs|]. intros z Hz. apply Hl. right; exact Hz.
    + apply List.Forall_forall. intros z Hz. apply in_app_or in Hz as [Hz|[<-|[]]].
      * rewrite List.Forall_forall in Hy. apply Hy, Hz.
      * apply Hl. left; reflexivity.
Qed.

End TimeOrder.

(** When the rows were written in time order (strictly increasing
    timestamps) and the timestamps of each table have one text form,
    [load_data] returns the last 100 rows written, newest first. *)
Theorem load_data_time_order (s : Store) (fs : list FuelRow) (cs : list CurrencyRow) :
  db_reachable s = true -> db_fuel s = Some fs -> db_currency s = Some cs ->
  StronglySorted (older fr_timestamp) fs -> StronglySorted (older cr_timestamp) cs ->
  uniform_format (map fr_timestamp fs) -> uniform_format (map cr_timestamp cs) ->
  load_data s = (Some (firstn 100 (rev fs)), Some (firstn 100 (rev cs))).
Proof.
  intros Hr Hf Hc Hsf Hsc Uf Uc. apply select_recent_uniform in Uf, Uc.
  unfold load_data; cbv zeta. rewrite Hr, Hf, Hc, Uf, Uc. unfold select_recent.
  rewrite (sort_desc_increasing _ fs Hsf), (sort_desc_increasing _ cs Hsc).
  reflexivity.
Qed.

Lemma load_data_time_order_witness :
  (db_reachable (healthy_store [frow 2.5 64 59 900; frow 2.55 65 60 1000]
                   [crow 83 97 114 0.56 900; crow 84 98 115 0.57 1000]) = true
   /\ db_fuel (healthy_store [frow 2.5 64 59 900; frow 2.55 65 60 1000]
                 [crow 83 97 114 0.56 900; crow 84 98 115 0.57 1000])
      = Some [frow 2.5 64 59 900; frow 2.55 65 60 1000]
   /\ db_currency (healthy_store [frow 2.5 64 59 900; frow 2.55 65 60 1000]
                     [crow 83 97 114 0.56 900; crow 84 98 115 0.57 1000])
      = Some [crow 83 97 114 0.56 900; crow 84 98 115 0.57 1000]
   /\ StronglySorted (older fr_timestamp) [frow 2.5 64 59 900; frow 2.55 65 60 1000]
   /\ StronglySorted (older cr_timestamp) [crow 83 97 114 0.56 900; crow 84 98 115 0.57 1000]
   /\ uniform_format (map fr_timestamp [frow 2.5 64 59 900; frow 2.55 65 60 1000])
   /\ uniform_format (map cr_timestamp [crow 83 97 114 0.56 900; crow 84 98 115 0.57 1000]))
  /\ load_data (healthy_store [frow 2.5 64 59 900; frow 2.55 65 60 1000]
                  [crow 83 97 114 0.56 900; crow 84 98 115 0.57 1000])
     = (Some (firstn 100 (rev [frow 2.5 64 59 900; frow 2.55 65 60 1000])),
        Some (firstn 100 (rev [crow 83 97 114 0.56 900; crow 84 98 115 0.57 1000]))).
Proof.
  assert (Hf : StronglySorted (older fr_timestamp) [frow 2.5 64 59 900; frow 2.55 65 60 1000]).
  { repeat constructor; unfold older; simpl; lia. }
  assert (Hc : StronglySorted (older cr_timestamp)
                 [crow 83 97 114 0.56 900; crow 84 98 115 0.57 1000]).
  { repeat constructor; unfold older; simpl; lia. }
  assert (Uf : uniform_format (map fr_timestamp [frow 2.5 64 59 900; frow 2.55 65 60 1000]))
    by (apply to_datetime_ok_iff; vm_compute; reflexivity).
  assert (Uc : uniform_format (map cr_timestamp
                                 [crow 83 97 114 0.56 900; crow 84 98 115 0.57 1000]))
    by (apply to_datetime_ok_iff; vm_compute; reflexivity).
  split; [repeat split; assumption|].
  apply load_data_time_order;
    [reflexivity|reflexivity|reflexivity|exact Hf|exact Hc|exact Uf|exact Uc].
Defined.

(** Cycles at increasing times keep the tables in time order: on a store
    that accepts writes, whose rows are in time order and older than the
    clock reading of their table's fetcher, the cycle leaves tables that
    are still in time order and one row longer. *)
Theorem collect_keeps_time_order (RState : Type) (rand : RState -> Q * RState)
    (env : Env) (fs : list FuelRow) (cs : list CurrencyRow) (st : RState) :
  StronglySorted (older fr_timestamp) fs -> StronglySorted (older cr_timestamp) cs ->
  (forall f, In f fs -> (fr_timestamp f < env_fuel_now env)%Z) ->
  (forall c, In c cs -> (cr_timestamp c < env_currency_now env)%Z) ->
  exists fr cr st2,
    collect_and_store_realtime_data RState rand env (healthy_store fs cs) st
      = (true, healthy_store (fs ++ [fr]) (cs ++ [cr]), st2)
    /\ StronglySorted (older fr_timestamp) (fs ++ [fr])
    /\ StronglySorted (older cr_timestamp) (cs ++ [cr]).
Proof.
  intros Hsf Hsc Hfs Hcs.
  destruct (collect_unfold rand env (healthy_store fs cs) st)
    as (f & c & st1 & st2 & _ & _ & Sf & Sc & E).
  destruct Sf as (j & b & w & Hf). destruct Sc as (u & e & g & y & Hc).
  exists (frow j b w (env_fuel_now env)), (crow u e g y (env_currency_now env)), st2.
  split; [|split].
  - rewrite E. subst f c. unfold store_data_in_database, store_try, time_field, num_field.
    simplify_map_eq. reflexivity.
  - apply sorted_older_snoc; [exact Hsf|exact Hfs].
  - apply sorted_older_snoc; [exact Hsc|exact Hcs].
Qed.

Lemma collect_keeps_time_order_witness :
  (StronglySorted (older fr_timestamp) [frow 2.5 64 59 900]
   /\ StronglySorted (older cr_timestamp) [crow 83 97 114 0.56 900]
   /\ (forall f, In f [frow 2.5 64 59 900] -> (fr_timestamp f < env_fuel_now live_env)%Z)
   /\ (forall c, In c [crow 83 97 114 0.56 900] -> (cr_timestamp c < env_currency_now live_env)%Z))
  /\ exists fr cr st2,
    collect_and_store_realtime_data unit half_rand live_env
      (healthy_store [frow 2.5 64 59 900] [crow 83 97 114 0.56 900]) tt
      = (true, healthy_store ([frow 2.5 64 59 900] ++ [fr])
                 ([crow 83 97 114 0.56 900] ++ [cr]), st2)
    /\ StronglySorted (older fr_timestamp) ([frow 2.5 64 59 900] ++ [fr])
    /\ StronglySorted (older cr_timestamp) ([crow 83 97 114 0.56 900] ++ [cr]).
Proof.
  assert (Hf : StronglySorted (older fr_timestamp) [frow 2.5 64 59 900])
    by (repeat constructor).
  assert (Hc : StronglySorted (older cr_timestamp) [crow 83 97 114 0.56 900])
    by (repeat constructor).
  assert (Hfs : forall f, In f [frow 2.5 64 59 900] -> (fr_timestamp f < env_fuel_now live_env)%Z).
  { intros f [<-|[]]. vm_compute. reflexivity. }
  assert (Hcs : forall c, In c [crow 83 97 114 0.56 900] -> (cr_timestamp c < env_currency_now live_env)%Z).
  { intros c [<-|[]]. vm_compute. reflexivity. }
  split; [repeat split; assumption|].
  exact (collect_keeps_time_order unit half_rand live_env _ _ tt Hf Hc Hfs Hcs).
Defined.
